(** * Inventory backend and voice-agent cart: a shallow embedding

    The development follows [src/main.py] (the REST handlers over the
    relational store), [src/tool.py] (the voice agent's name tables, cart
    and checkout) and [src/chat_logger.py] (the session event log).

    - Tables with an integer primary key are finite maps from the key to the
      row ([gmap Z _]); a scan of a table walks [map_to_list].
    - Python [int] is [Z]; [str] is [string], whose characters are 8-bit, so
      [lower] and [strip] act on the ASCII range and leave other characters
      alone.
    - Amounts of money are exact numbers of cents in [Z]; the source holds
      them as [float] and prints them with [:.2f].
    - A handler either returns a value or raises; the store is threaded
      explicitly, and [transaction] gives the commit/rollback rule of the
      driver's [async with conn.transaction()] block. *)

From stdpp Require Import base numbers option list strings gmap fin_maps sorting.
From Stdlib Require Import Ascii String DecimalString.

Open Scope string_scope.
Open Scope list_scope.
Open Scope Z_scope.

(** ** Character and string primitives *)

Module Str.

(** [str.lower] on one character: only [A]..[Z] change. *)
Definition lower_char (c : ascii) : ascii :=
  let n := N_of_ascii c in
  if ((65 <=? n)%N && (n <=? 90)%N)%bool then ascii_of_N (n + 32) else c.

(** The characters [str.strip] removes: tab, line feed, vertical tab, form
    feed, carriage return, the four separators 28..31 and the space. *)
Definition is_space (c : ascii) : bool :=
  let n := N_of_ascii c in
  (((9 <=? n)%N && (n <=? 13)%N) || ((28 <=? n)%N && (n <=? 32)%N))%bool.

(** The character SQL [TRIM] removes: the space only. *)
Definition is_blank (c : ascii) : bool := (N_of_ascii c =? 32)%N.

Fixpoint drop_while (p : ascii -> bool) (l : list ascii) : list ascii :=
  match l with
  | [] => []
  | c :: l' => if p c then drop_while p l' else l
  end.

Definition trim_with (p : ascii -> bool) (l : list ascii) : list ascii :=
  rev (drop_while p (rev (drop_while p l))).

Definition lower (s : string) : string :=
  string_of_list_ascii (map lower_char (list_ascii_of_string s)).

Definition strip (s : string) : string :=
  string_of_list_ascii (trim_with is_space (list_ascii_of_string s)).

Definition sql_trim (s : string) : string :=
  string_of_list_ascii (trim_with is_blank (list_ascii_of_string s)).

Fixpoint starts_with (old s : list ascii) : bool :=
  match old, s with
  | [], _ => true
  | _ :: _, [] => false
  | o :: old', c :: s' => if Ascii.eqb o c then starts_with old' s' else false
  end.

(** The scan of [s.replace(old, '')]: left to right, occurrences do not
    overlap; [skip] counts the characters of an occurrence still to drop. *)
Fixpoint remove_from (old : list ascii) (skip : nat) (s : list ascii)
  : list ascii :=
  match s with
  | [] => []
  | c :: s' =>
      match skip with
      | S k => remove_from old k s'
      | O =>
          if starts_with old s
          then remove_from old (Nat.pred (List.length old)) s'
          else c :: remove_from old 0 s'
      end
  end.

(** [s.replace(old, '')]. *)
Definition remove_all (old s : string) : string :=
  match old with
  | EmptyString => s
  | _ =>
      string_of_list_ascii
        (remove_from (list_ascii_of_string old) 0 (list_ascii_of_string s))
  end.

(** Python truthiness of a [str]. *)
Definition nonempty (s : string) : bool :=
  match s with EmptyString => false | _ => true end.

(** The line feed of a ["\n"] escape. *)
Definition nl : string := String "010"%char EmptyString.

(** [", ".join(l)] and friends. *)
Fixpoint join (sep : string) (l : list string) : string :=
  match l with
  | [] => ""
  | [x] => x
  | x :: l' => x +:+ sep +:+ join sep l'
  end.

(** [str(n)] for an [int]. *)
Definition of_Z (n : Z) : string := NilZero.string_of_int (Z.to_int n).

Definition two_digits (n : Z) : string :=
  if n <? 10 then "0" +:+ of_Z n else of_Z n.

(** [f"{x:.2f}"] for an amount of [c] cents. *)
Definition money (c : Z) : string :=
  (if c <? 0 then "-" else "") +:+
  of_Z (Z.abs c / 100) +:+ "." +:+ two_digits (Z.abs c mod 100).

(** [pat in s]: whether [pat] occurs in [s]. *)
Fixpoint contains_at (pat s : list ascii) : bool :=
  starts_with pat s ||
  match s with
  | [] => false
  | _ :: s' => contains_at pat s'
  end.

Definition contains (pat s : string) : bool :=
  contains_at (list_ascii_of_string pat) (list_ascii_of_string s).

(** SQL [s LIKE pattern]: [%] stands for any run of characters, [_] for any
    one character, and a backslash makes the next character literal.  The
    database rejects a pattern whose last character is a lone backslash; the
    patterns built in this program end in [%], so that a backslash always
    has a successor, and the case is given [false] here. *)
Fixpoint like (pattern s : list ascii) {struct pattern} : bool :=
  match pattern with
  | [] => match s with [] => true | _ :: _ => false end
  | c :: pattern' =>
      if Ascii.eqb c "%" then
        (fix any (s : list ascii) : bool :=
           like pattern' s ||
           match s with
           | [] => false
           | _ :: s' => any s'
           end) s
      else if Ascii.eqb c "_" then
        match s with
        | [] => false
        | _ :: s' => like pattern' s'
        end
      else if Ascii.eqb c "\" then
        match pattern' with
        | [] => false
        | e :: pattern'' =>
            match s with
            | [] => false
            | d :: s' => Ascii.eqb e d && like pattern'' s'
            end
        end
      else
        match s with
        | [] => false
        | d :: s' => Ascii.eqb c d && like pattern' s'
        end
  end.

Definition sql_like (s pattern : string) : bool :=
  like (list_ascii_of_string pattern) (list_ascii_of_string s).

End Str.

(** ** The voice agent's name tables ([InventoryAssistant], src/tool.py) *)

Definition ITEM_MAPPINGS : gmap string string :=
  list_to_map
    [ ("cola", "Coke"); ("soda", "Coke"); ("coke", "Coke");
      ("coca cola", "Coke"); ("coca-cola", "Coke");
      ("chips", "Lays"); ("potato chips", "Lays"); ("lays", "Lays");
      ("biscuit", "Bisckets"); ("cookies", "Bisckets");
      ("biscuits", "Bisckets"); ("bisckets", "Bisckets") ].

Definition VARIANT_MAPPINGS : gmap string string :=
  list_to_map
    [ ("regular", "Regular"); ("normal", "Regular"); ("small", "Regular");
      ("half liter", "Half Liter"); ("half litre", "Half Liter");
      ("500ml", "Half Liter"); ("medium", "Half Liter");
      ("1.5 liter", "1.5 Liter"); ("1.5 litre", "1.5 Liter");
      ("1500ml", "1.5 Liter"); ("large", "1.5 Liter"); ("big", "1.5 Liter") ].

Definition CATEGORY_MAPPINGS : gmap string string :=
  list_to_map
    [ ("drink", "Drinks"); ("drinks", "Drinks"); ("beverage", "Drinks");
      ("beverages", "Drinks"); ("snack", "Snacks"); ("snacks", "Snacks");
      ("chips", "Snacks"); ("biscuit", "Biscuits"); ("biscuits", "Biscuits");
      ("cookie", "Biscuits"); ("cookies", "Biscuits") ].

(** [dict.get(key, default)]. *)
Definition dict_get (d : gmap string string) (key default : string) : string :=
  match d !! key with
  | Some v => v
  | None => default
  end.

Definition _map_item_name (item_name : string) : string :=
  let item_lower := Str.strip (Str.lower item_name) in
  dict_get ITEM_MAPPINGS item_lower item_name.

Definition _map_variant_name (variant_name : string) : string :=
  let variant_lower := Str.strip (Str.lower variant_name) in
  dict_get VARIANT_MAPPINGS variant_lower variant_name.

Definition _map_category_name (category_name : string) : string :=
  let category_lower := Str.strip (Str.lower category_name) in
  dict_get CATEGORY_MAPPINGS category_lower category_name.


(** ** The catalog store *)

Module Db.

(** Modelled from the spec: the persisted schema, which is not part of the
    sources.  Section 6 gives [stock_items(id, item_name, quantity, unit)]
    and [item_variants(id, stock_item_id, variant, quantity, unit, price)];
    the queries of [src/tool.py] also read a nullable [stock_items.price].
    Ids are generated by the store, here from a sequence. *)
Record StockRow := {
  s_item_name : string;
  s_quantity : Z;
  s_unit : string;
  s_price : option Z
}.

Record VariantRow := {
  v_stock_item_id : Z;
  v_variant : string;
  v_quantity : Z;
  v_unit : string;
  v_price : Z
}.

Record Store := {
  stock_items : gmap Z StockRow;
  item_variants : gmap Z VariantRow;
  stock_items_id_seq : Z
}.

(** What a handler can raise: an [HTTPException], or any other
    [Exception] (a validation error, a driver error). *)
Inductive Exn :=
| HTTPException (status_code : Z) (detail : string)
| Exception (what : string).

Inductive Exit (A : Type) :=
| Return (a : A)
| Raise (e : Exn).
Arguments Return {A} a.
Arguments Raise {A} e.

(** A computation against the store. *)
Definition DB (A : Type) : Type := Store -> Exit A * Store.

Definition ret {A} (a : A) : DB A := fun st => (Return a, st).
Definition raise {A} (e : Exn) : DB A := fun st => (Raise e, st).
Definition bind {A B} (c : DB A) (k : A -> DB B) : DB B :=
  fun st =>
    match c st with
    | (Return a, st') => k a st'
    | (Raise e, st') => (Raise e, st')
    end.

(** [async with conn.transaction(): body].  The driver commits when the
    block is left without an exception, which includes leaving it by
    [return], and rolls back when an exception leaves the block. *)
Definition transaction {A} (body : DB A) : DB A :=
  fun st =>
    match body st with
    | (Return a, st') => (Return a, st')
    | (Raise e, _) => (Raise e, st)
    end.

(** [except HTTPException: raise] followed by
    [except Exception: raise HTTPException(500, failure)]. *)
Definition guard {A} (failure : string) (body : DB A) : DB A :=
  fun st =>
    match body st with
    | (Raise (Exception _), st') => (Raise (HTTPException 500 failure), st')
    | r => r
    end.

(** Python truthiness of what [fetchval] returns for an integer column. *)
Definition truthy (v : option Z) : bool :=
  match v with
  | Some n => negb (n =? 0)
  | None => false
  end.

(** [SELECT id, item_name, quantity, unit FROM stock_items WHERE id = $1]. *)
Definition select_stock (item_id : Z) : DB (option (Z * StockRow)) :=
  fun st => (Return (pair item_id <$> stock_items st !! item_id), st).

(** [SELECT id FROM stock_items WHERE id = $1]. *)
Definition select_stock_id (item_id : Z) : DB (option Z) :=
  fun st => (Return ((fun _ => item_id) <$> stock_items st !! item_id), st).

(** [SELECT id FROM stock_items WHERE LOWER(item_name) = LOWER($1)]; the
    first row of the scan is what [fetchval] sees. *)
Definition select_id_by_name (name : string) : DB (option Z) :=
  fun st =>
    (Return
       (fst <$> head (filter
                        (fun r => Str.lower (s_item_name r.2) = Str.lower name)
                        (map_to_list (stock_items st)))),
     st).

(** [INSERT INTO stock_items (item_name, quantity, unit) VALUES ($1, $2, $3)
    RETURNING id, item_name, quantity, unit].  The id comes from the
    sequence, which advances even when the insert fails on the key. *)
Definition insert_stock (name : string) (qty : Z) (unit : string)
  : DB (Z * StockRow) :=
  fun st =>
    let new_id := stock_items_id_seq st in
    let row := {| s_item_name := name; s_quantity := qty;
                  s_unit := unit; s_price := None |} in
    match stock_items st !! new_id with
    | Some _ =>
        (Raise (Exception "UniqueViolationError"),
         {| stock_items := stock_items st;
            item_variants := item_variants st;
            stock_items_id_seq := new_id + 1 |})
    | None =>
        (Return (new_id, row),
         {| stock_items := <[new_id := row]> (stock_items st);
            item_variants := item_variants st;
            stock_items_id_seq := new_id + 1 |})
    end.

(** One [column = $n] clause of a dynamically assembled [UPDATE]. *)
Inductive Assignment :=
| Set_item_name (v : string)
| Set_quantity (v : Z)
| Set_unit (v : string).

Definition assign (row : StockRow) (a : Assignment) : StockRow :=
  match a with
  | Set_item_name v =>
      {| s_item_name := v; s_quantity := s_quantity row;
         s_unit := s_unit row; s_price := s_price row |}
  | Set_quantity v =>
      {| s_item_name := s_item_name row; s_quantity := v;
         s_unit := s_unit row; s_price := s_price row |}
  | Set_unit v =>
      {| s_item_name := s_item_name row; s_quantity := s_quantity row;
         s_unit := v; s_price := s_price row |}
  end.

Definition with_stock_items (st : Store) (m : gmap Z StockRow) : Store :=
  {| stock_items := m; item_variants := item_variants st;
     stock_items_id_seq := stock_items_id_seq st |}.

Definition with_item_variants (st : Store) (m : gmap Z VariantRow) : Store :=
  {| stock_items := stock_items st; item_variants := m;
     stock_items_id_seq := stock_items_id_seq st |}.

(** [UPDATE stock_items SET <update_fields> WHERE id = $n
    RETURNING id, item_name, quantity, unit]. *)
Definition update_stock_set (update_fields : list Assignment) (item_id : Z)
  : DB (option (Z * StockRow)) :=
  fun st =>
    match stock_items st !! item_id with
    | None => (Return None, st)
    | Some row =>
        let row' := foldl assign row update_fields in
        (Return (Some (item_id, row')),
         with_stock_items st (<[item_id := row']> (stock_items st)))
    end.

(** [UPDATE stock_items SET quantity = quantity + $1 WHERE id = $2
    RETURNING id, item_name, quantity, unit]. *)
Definition update_stock_add (delta : Z) (item_id : Z)
  : DB (option (Z * StockRow)) :=
  fun st =>
    match stock_items st !! item_id with
    | None => (Return None, st)
    | Some row =>
        let row' := assign row (Set_quantity (s_quantity row + delta)) in
        (Return (Some (item_id, row')),
         with_stock_items st (<[item_id := row']> (stock_items st)))
    end.

(** [UPDATE stock_items SET quantity = $1 WHERE id = $2 RETURNING quantity]
    (the voice agent runs it without the [RETURNING]). *)
Definition update_stock_quantity (new_quantity : Z) (item_id : Z)
  : DB (option Z) :=
  fun st =>
    match stock_items st !! item_id with
    | None => (Return None, st)
    | Some row =>
        let row' := assign row (Set_quantity new_quantity) in
        (Return (Some new_quantity),
         with_stock_items st (<[item_id := row']> (stock_items st)))
    end.

(** [SELECT quantity FROM stock_items WHERE id = $1]. *)
Definition select_stock_quantity (item_id : Z) : DB (option Z) :=
  fun st => (Return (s_quantity <$> stock_items st !! item_id), st).

(** [SELECT quantity FROM item_variants WHERE id = $1]. *)
Definition select_variant_quantity (variant_id : Z) : DB (option Z) :=
  fun st => (Return (v_quantity <$> item_variants st !! variant_id), st).

(** [UPDATE item_variants SET quantity = $1 WHERE id = $2]. *)
Definition update_variant_quantity (new_quantity : Z) (variant_id : Z)
  : DB ()%type :=
  fun st =>
    match item_variants st !! variant_id with
    | None => (Return tt, st)
    | Some v =>
        let v' := {| v_stock_item_id := v_stock_item_id v;
                     v_variant := v_variant v;
                     v_quantity := new_quantity;
                     v_unit := v_unit v;
                     v_price := v_price v |} in
        (Return tt,
         with_item_variants st (<[variant_id := v']> (item_variants st)))
    end.

(** [except Exception as e: raise HTTPException(500, failure)] on its own,
    for the handlers that have no [except HTTPException: raise] before it. *)
Definition guard_all {A} (failure : string) (body : DB A) : DB A :=
  fun st =>
    match body st with
    | (Raise _, st') => (Raise (HTTPException 500 failure), st')
    | r => r
    end.

(** [ORDER BY] on one key, as a stable insertion sort. *)
Fixpoint insert_by {A} (le : A -> A -> bool) (r : A) (l : list A) : list A :=
  match l with
  | [] => [r]
  | x :: l' => if le x r then x :: insert_by le r l' else r :: l
  end.

Definition order_by {A} (le : A -> A -> bool) (l : list A) : list A :=
  foldl (fun acc r => insert_by le r acc) [] l.

(** [SELECT id, item_name, quantity, unit FROM stock_items ORDER BY id]. *)
Definition select_all_stocks : DB (list (Z * StockRow)) :=
  fun st =>
    (Return (order_by (fun a b : Z * StockRow => a.1 <=? b.1)
               (map_to_list (stock_items st))), st).

(** [SELECT id, item_name, quantity, unit FROM stock_items
     WHERE LOWER(item_name) LIKE LOWER($1) ORDER BY item_name], the order
    being that of the bytes. *)
Definition select_stocks_like (pattern : string) : DB (list (Z * StockRow)) :=
  fun st =>
    (Return
       (order_by
          (fun a b : Z * StockRow =>
             String.leb (s_item_name a.2) (s_item_name b.2))
          (filter
             (fun r : Z * StockRow =>
                Str.sql_like (Str.lower (s_item_name r.2)) (Str.lower pattern))
             (map_to_list (stock_items st)))), st).

(** [SELECT id, item_name, quantity, unit FROM stock_items
     WHERE quantity < $1 ORDER BY quantity ASC]. *)
Definition select_low_stock (threshold : Z) : DB (list (Z * StockRow)) :=
  fun st =>
    (Return
       (order_by (fun a b : Z * StockRow => s_quantity a.2 <=? s_quantity b.2)
          (filter (fun r : Z * StockRow => s_quantity r.2 < threshold)
             (map_to_list (stock_items st)))), st).

(** Modelled from the spec: a variant holds a foreign key to its item, and
    the schema that says what a delete does to the variants of the deleted
    item is not part of the sources; the three possibilities are kept. *)
Inductive OnDelete :=
| No_constraint
| Restrict
| Cascade.

(** [DELETE FROM stock_items WHERE id = $1 RETURNING id, item_name]. *)
Definition delete_stock_row (on_delete : OnDelete) (item_id : Z)
  : DB (option (Z * string)) :=
  fun st =>
    match stock_items st !! item_id with
    | None => (Return None, st)
    | Some row =>
        let referencing :=
          filter (fun v : Z * VariantRow => v_stock_item_id v.2 = item_id)
            (map_to_list (item_variants st)) in
        let without := with_stock_items st (delete item_id (stock_items st)) in
        match referencing, on_delete with
        | _ :: _, Restrict => (Raise (Exception "ForeignKeyViolationError"), st)
        | _ :: _, Cascade =>
            (Return (Some (item_id, s_item_name row)),
             with_item_variants without
               (filter (fun v : Z * VariantRow => v_stock_item_id v.2 <> item_id)
                  (item_variants st)))
        | _, _ => (Return (Some (item_id, s_item_name row)), without)
        end
    end.

End Db.

Notation "x <~ c ;; k" := (Db.bind c (fun x => k))
  (at level 100, c at next level, right associativity, only parsing).

(** ** The REST handlers (src/main.py) *)

Module Main.
Import Db.

(** The request and response models.  A [Field(..., ge=0)] or [gt=0]
    constraint is the model's [valid] predicate: the framework answers 422
    and never calls the handler when it fails, and constructing a response
    model whose constraint fails raises a validation error. *)
Module StockItemCreate.
Record t := { item_name : string; quantity : Z; unit : string }.
Definition valid (r : t) : bool := 0 <=? quantity r.
End StockItemCreate.

Module StockItemUpdate.
Record t := {
  item_name : option string;
  quantity : option Z;
  unit : option string
}.
Definition valid (r : t) : bool :=
  match quantity r with
  | Some q => 0 <=? q
  | None => true
  end.
End StockItemUpdate.

Module StockItem.
Record t := { id : Z; item_name : string; quantity : Z; unit : string }.

(** The response model built from a returned row. *)
Definition of_row (row : Z * StockRow) : DB t :=
  if 0 <=? s_quantity row.2
  then ret {| id := row.1; item_name := s_item_name row.2;
              quantity := s_quantity row.2; unit := s_unit row.2 |}
  else raise (Exception "ValidationError").
End StockItem.

Module AddQuantityRequest.
Record t := { quantity_to_add : Z }.
Definition valid (r : t) : bool := 0 <? quantity_to_add r.
End AddQuantityRequest.

Module PurchaseRequest.
Record t := { item_id : Z; quantity : Z }.
Definition valid (r : t) : bool := 0 <? quantity r.
End PurchaseRequest.

Module PurchaseResponse.
Record t := {
  message : string;
  item_name : string;
  purchased_quantity : Z;
  remaining_quantity : Z
}.
End PurchaseResponse.

Definition not_found (item_id : Z) : Exn :=
  HTTPException 404
    ("Stock item with ID " +:+ Str.of_Z item_id +:+ " not found").

Definition get_stock_by_id (item_id : Z) : DB StockItem.t :=
  guard "Failed to fetch stock item"
    (row <~ select_stock item_id ;;
     match row with
     | None => raise (not_found item_id)
     | Some row => StockItem.of_row row
     end).

Definition add_stock (stock_item : StockItemCreate.t) : DB StockItem.t :=
  guard "Failed to add stock item"
    (existing_item <~
       select_id_by_name (StockItemCreate.item_name stock_item) ;;
     if truthy existing_item then
       raise (HTTPException 400
                ("Item '" +:+ StockItemCreate.item_name stock_item +:+
                 "' already exists. Use PUT to update quantity."))
     else
       row <~ insert_stock (StockItemCreate.item_name stock_item)
                (StockItemCreate.quantity stock_item)
                (StockItemCreate.unit stock_item) ;;
       StockItem.of_row row).

(** The [update_fields] list the handler assembles, one clause per
    supplied field, in the order name, quantity, unit. *)
Definition update_fields (stock_update : StockItemUpdate.t)
  : list Assignment :=
  (match StockItemUpdate.item_name stock_update with
   | Some v => [Set_item_name v]
   | None => []
   end) ++
  (match StockItemUpdate.quantity stock_update with
   | Some v => [Set_quantity v]
   | None => []
   end) ++
  (match StockItemUpdate.unit stock_update with
   | Some v => [Set_unit v]
   | None => []
   end).

Definition update_stock (item_id : Z) (stock_update : StockItemUpdate.t)
  : DB StockItem.t :=
  guard "Failed to update stock item"
    (existing_item <~ select_stock_id item_id ;;
     if negb (truthy existing_item) then raise (not_found item_id)
     else
       match update_fields stock_update with
       | [] => raise (HTTPException 400 "No fields to update")
       | fields =>
           row <~ update_stock_set fields item_id ;;
           match row with
           | None => raise (Exception "TypeError")
           | Some row => StockItem.of_row row
           end
       end).

Definition add_quantity_to_stock (item_id : Z)
    (request : AddQuantityRequest.t) : DB StockItem.t :=
  guard "Failed to add quantity to stock item"
    (row <~ update_stock_add
              (AddQuantityRequest.quantity_to_add request) item_id ;;
     match row with
     | None => raise (not_found item_id)
     | Some row => StockItem.of_row row
     end).

Definition purchase_item (purchase : PurchaseRequest.t)
  : DB PurchaseResponse.t :=
  guard "Failed to process purchase"
    (transaction
       (row <~ select_stock (PurchaseRequest.item_id purchase) ;;
        match row with
        | None => raise (not_found (PurchaseRequest.item_id purchase))
        | Some (_, current_stock) =>
            if s_quantity current_stock <? PurchaseRequest.quantity purchase
            then
              raise (HTTPException 400
                       ("Insufficient stock. Available: " +:+
                        Str.of_Z (s_quantity current_stock) +:+
                        ", Requested: " +:+
                        Str.of_Z (PurchaseRequest.quantity purchase)))
            else
              let new_quantity :=
                s_quantity current_stock -
                PurchaseRequest.quantity purchase in
              updated_quantity <~
                update_stock_quantity new_quantity
                  (PurchaseRequest.item_id purchase) ;;
              match updated_quantity with
              | None => raise (Exception "ValidationError")
              | Some remaining =>
                  ret {| PurchaseResponse.message :=
                           "Successfully purchased " +:+
                           Str.of_Z (PurchaseRequest.quantity purchase) +:+
                           " " +:+ s_unit current_stock +:+ " of " +:+
                           s_item_name current_stock;
                         PurchaseResponse.item_name :=
                           s_item_name current_stock;
                         PurchaseResponse.purchased_quantity :=
                           PurchaseRequest.quantity purchase;
                         PurchaseResponse.remaining_quantity := remaining |}
              end
        end)).

(** The mutating routes, with the body validation the framework performs
    before the handler runs. *)
Inductive Request :=
| POST_stocks (body : StockItemCreate.t)
| PUT_stocks (item_id : Z) (body : StockItemUpdate.t)
| POST_stocks_add_quantity (item_id : Z) (body : AddQuantityRequest.t)
| POST_purchase (body : PurchaseRequest.t).

Inductive Response :=
| Item (item : StockItem.t)
| Receipt (receipt : PurchaseResponse.t)
| Error (status_code : Z) (detail : string).

Definition respond {A} (wrap : A -> Response) (valid : bool) (h : DB A)
  : Store -> Response * Store :=
  fun st =>
    if valid then
      match h st with
      | (Return a, st') => (wrap a, st')
      | (Raise (HTTPException code d), st') => (Error code d, st')
      | (Raise (Exception _), st') => (Error 500 "Internal Server Error", st')
      end
    else (Error 422 "Unprocessable Entity", st).

Definition serve (r : Request) : Store -> Response * Store :=
  match r with
  | POST_stocks body =>
      respond Item (StockItemCreate.valid body) (add_stock body)
  | PUT_stocks item_id body =>
      respond Item (StockItemUpdate.valid body) (update_stock item_id body)
  | POST_stocks_add_quantity item_id body =>
      respond Item (AddQuantityRequest.valid body)
        (add_quantity_to_stock item_id body)
  | POST_purchase body =>
      respond Receipt (PurchaseRequest.valid body) (purchase_item body)
  end.

(** [[StockItem(...) for row in rows]]: the first row that fails the
    model's constraint raises. *)
Fixpoint stock_items_of (rows : list (Z * StockRow)) : DB (list StockItem.t) :=
  match rows with
  | [] => ret []
  | row :: rows' =>
      item <~ StockItem.of_row row ;;
      items <~ stock_items_of rows' ;;
      ret (item :: items)
  end.

Definition get_all_stocks : DB (list StockItem.t) :=
  guard_all "Failed to fetch stock items"
    (rows <~ select_all_stocks ;; stock_items_of rows).

Definition search_stocks_by_name (item_name : string) : DB (list StockItem.t) :=
  guard_all "Failed to search stock items"
    (rows <~ select_stocks_like ("%" +:+ item_name +:+ "%") ;;
     stock_items_of rows).

Definition get_low_stock_items (threshold : Z) : DB (list StockItem.t) :=
  guard_all "Failed to fetch low stock items"
    (rows <~ select_low_stock threshold ;; stock_items_of rows).

(** The handler returns a dictionary with the one key [message]. *)
Definition delete_stock (on_delete : OnDelete) (item_id : Z) : DB string :=
  guard "Failed to delete stock item"
    (row <~ delete_stock_row on_delete item_id ;;
     match row with
     | None => raise (not_found item_id)
     | Some (id, item_name) =>
         ret ("Stock item '" +:+ item_name +:+ "' (ID: " +:+ Str.of_Z id +:+
              ") deleted successfully")
     end).

End Main.

(** ** The voice agent's tools (src/tool.py) *)

Module Tool.
Import Db.

(** A row of the item/variant join, with the columns the tools select. *)
Module Row.
Record t := {
  stock_item_id : Z;
  item_name : string;
  variant : string;
  quantity : Z;
  unit : string;
  price : Z;
  variant_id : option Z
}.
End Row.

(** An entry of [self.cart]. *)
Module CartItem.
Record t := {
  item_name : string;
  variant : string;
  quantity : Z;
  unit : string;
  price_per_unit : Z;
  total_price : Z;
  variant_id : option Z;
  stock_item_id : Z
}.
End CartItem.

Definition _format_message (message : string) : string :=
  Str.remove_all "**" (Str.remove_all "*" message).

(** [LOWER(TRIM(a)) = LOWER(TRIM(b))]. *)
Definition same_name (a b : string) : bool :=
  String.eqb (Str.lower (Str.sql_trim a)) (Str.lower (Str.sql_trim b)).

(** [FROM stock_items s LEFT JOIN item_variants v
     ON s.id = v.stock_item_id]: an item without variant rows yields one
    row whose [v] columns are NULL. *)
Definition left_join (st : Store)
  : list ((Z * StockRow) * option (Z * VariantRow)) :=
  flat_map
    (fun s =>
       match filter (fun v => v_stock_item_id v.2 = s.1)
               (map_to_list (item_variants st)) with
       | [] => [(s, None)]
       | vs => map (fun v => (s, Some v)) vs
       end)
    (map_to_list (stock_items st)).

(** The select list shared by the item queries, [COALESCE]s included. *)
Definition select_row (j : (Z * StockRow) * option (Z * VariantRow))
  : Row.t :=
  let '(s, v) := j in
  {| Row.stock_item_id := s.1;
     Row.item_name := s_item_name s.2;
     Row.variant := from_option (fun v => v_variant v.2) "Default" v;
     Row.quantity := from_option (fun v => v_quantity v.2) (s_quantity s.2) v;
     Row.unit := from_option (fun v => v_unit v.2) (s_unit s.2) v;
     Row.price := from_option (fun v => v_price v.2) 0 v;
     Row.variant_id := fst <$> v |}.

(** [WHERE LOWER(TRIM(s.item_name)) = LOWER(TRIM($1))]. *)
Definition where_item (name : string)
    (j : (Z * StockRow) * option (Z * VariantRow)) : bool :=
  same_name (s_item_name j.1.2) name.

(** [AND (v.variant IS NULL OR LOWER(TRIM(v.variant)) = LOWER(TRIM($2)))]. *)
Definition where_variant (label : string)
    (j : (Z * StockRow) * option (Z * VariantRow)) : bool :=
  match j.2 with
  | None => true
  | Some v => same_name (v_variant v.2) label
  end.

(** [find_query] of [add_to_cart]. *)
Definition find_query (st : Store) (mapped_item mapped_variant : string)
  : list Row.t :=
  map select_row
    (filter (fun j => where_item mapped_item j && where_variant mapped_variant j)
       (left_join st)).

(** [variants_query]: the label and [COALESCE(v.price, s.price)]. *)
Definition variants_query (st : Store) (mapped_item : string)
  : list (string * option Z) :=
  map (fun j : (Z * StockRow) * option (Z * VariantRow) =>
         (from_option (fun v => v_variant v.2) "Default" j.2,
          from_option (fun v => Some (v_price v.2)) (s_price j.1.2) j.2))
    (filter (fun j => where_item mapped_item j) (left_join st)).

(** [ORDER BY variant], as a stable insertion sort on the byte order. *)
Fixpoint insert_by_variant (r : Row.t) (l : list Row.t) : list Row.t :=
  match l with
  | [] => [r]
  | x :: l' =>
      if String.leb (Row.variant x) (Row.variant r)
      then x :: insert_by_variant r l'
      else r :: l
  end.

Definition order_by_variant (l : list Row.t) : list Row.t :=
  foldl (fun acc r => insert_by_variant r acc) [] l.

(** The query of [get_item_variants]. *)
Definition variants_rows (st : Store) (mapped_item : string) : list Row.t :=
  order_by_variant
    (map select_row (filter (fun j => where_item mapped_item j) (left_join st))).

Definition not_in_inventory (item_name : string) : string :=
  "Sorry, I couldn't find '" +:+ item_name +:+ "' in our inventory.".

Definition variant_info (row : Row.t) : string :=
  Row.variant row +:+ ": " +:+ Str.of_Z (Row.quantity row) +:+ " " +:+
  Row.unit row +:+ " at $" +:+ Str.money (Row.price row) +:+ " each".

Definition get_item_variants (st : Store) (item_name : string) : string :=
  let mapped_item := _map_item_name item_name in
  match variants_rows st mapped_item with
  | [] => not_in_inventory item_name
  | (row0 :: _) as rows =>
      let variants_info := map variant_info rows in
      _format_message
        ("Available " +:+ Row.item_name row0 +:+ " variants: " +:+
         Str.join ", " variants_info)
  end.

(** [f"{v['variant']} (${v['price']:.2f})"] for each listed variant; the
    format raises on a NULL price. *)
Definition variant_list (variants : list (string * option Z))
  : option (list string) :=
  mapM (fun v : string * option Z =>
          p ← v.2; Some (v.1 +:+ " ($" +:+ Str.money p +:+ ")"))
    variants.

(** [sum(item['total_price'] for item in self.cart)]. *)
Definition cart_total_of (cart : list CartItem.t) : Z :=
  foldl (fun acc item => acc + CartItem.total_price item) 0 cart.

Definition add_to_cart (st : Store) (cart : list CartItem.t)
    (item_name : string) (quantity : Z) (variant : string)
  : string * list CartItem.t :=
  let mapped_item := _map_item_name item_name in
  let mapped_variant :=
    if Str.nonempty variant && Str.nonempty (Str.strip variant)
    then _map_variant_name variant else "Default" in
  match head (find_query st mapped_item mapped_variant) with
  | None =>
      match variants_query st mapped_item with
      | [] => (not_in_inventory item_name, cart)
      | variants =>
          match variant_list variants with
          | None =>
              ("Sorry, I encountered an error while adding " +:+
               Str.of_Z quantity +:+ " " +:+ item_name +:+
               " to cart. Please try again.", cart)
          | Some variant_list =>
              (_format_message
                 ("Sorry, I couldn't find '" +:+ variant +:+
                  "' variant of " +:+ item_name +:+
                  ". Available options are: " +:+
                  Str.join ", " variant_list), cart)
          end
      end
  | Some item =>
      if Row.quantity item <? quantity then
        ("Sorry, we only have " +:+ Str.of_Z (Row.quantity item) +:+ " " +:+
         Row.unit item +:+ " of " +:+ Row.item_name item +:+ " (" +:+
         Row.variant item +:+ ") available.", cart)
      else
        let item_total := Row.price item * quantity in
        let cart_item :=
          {| CartItem.item_name := Row.item_name item;
             CartItem.variant := Row.variant item;
             CartItem.quantity := quantity;
             CartItem.unit := Row.unit item;
             CartItem.price_per_unit := Row.price item;
             CartItem.total_price := item_total;
             CartItem.variant_id := Row.variant_id item;
             CartItem.stock_item_id := Row.stock_item_id item |} in
        let cart' := cart ++ [cart_item] in
        let cart_total := cart_total_of cart' in
        ("Added " +:+ Str.of_Z quantity +:+ " " +:+ Row.unit item +:+
         " of " +:+ Row.item_name item +:+ " (" +:+ Row.variant item +:+
         ") to cart at $" +:+ Str.money (Row.price item) +:+ " each = $" +:+
         Str.money item_total +:+ ". Cart total: $" +:+
         Str.money cart_total, cart')
  end.

Definition show_cart (cart : list CartItem.t) : string :=
  match cart with
  | [] => "Your cart is empty."
  | _ =>
      let cart_details :=
        map (fun item =>
               Str.of_Z (CartItem.quantity item) +:+ " " +:+
               CartItem.unit item +:+ " of " +:+ CartItem.item_name item +:+
               " (" +:+ CartItem.variant item +:+ ") - $" +:+
               Str.money (CartItem.price_per_unit item) +:+ " each = $" +:+
               Str.money (CartItem.total_price item))
          cart in
      "Your cart:" +:+ Str.nl +:+ Str.join Str.nl cart_details +:+
      Str.nl +:+ Str.nl +:+ "Total: $" +:+ Str.money (cart_total_of cart)
  end.

Definition clear_cart (cart : list CartItem.t) : string * list CartItem.t :=
  ("Cart cleared successfully.", []).

(** [cart_item.get('variant_id')] as the branch condition reads it: a
    missing, NULL or zero id takes the item branch. *)
Definition get_variant_id (cart_item : CartItem.t) : option Z :=
  match CartItem.variant_id cart_item with
  | Some vid => if vid =? 0 then None else Some vid
  | None => None
  end.

Definition unavailable_variant (cart_item : CartItem.t) : string :=
  "Sorry, " +:+ CartItem.item_name cart_item +:+ " (" +:+
  CartItem.variant cart_item +:+
  ") is no longer available in the requested quantity. Please check stock and try again.".

Definition unavailable_item (cart_item : CartItem.t) : string :=
  "Sorry, " +:+ CartItem.item_name cart_item +:+
  " is no longer available in the requested quantity. Please check stock and try again.".

Definition purchase_detail (cart_item : CartItem.t) : string :=
  Str.of_Z (CartItem.quantity cart_item) +:+ " " +:+
  CartItem.unit cart_item +:+ " of " +:+ CartItem.item_name cart_item +:+
  " (" +:+ CartItem.variant cart_item +:+ ") - $" +:+
  Str.money (CartItem.total_price cart_item).

(** How the [for cart_item in self.cart] loop of [complete_purchase] ends:
    by one of its [return] statements, or by running off the list. *)
Inductive LoopExit :=
| Returned (message : string)
| Completed (purchase_details : list string) (total_amount : Z).

Fixpoint checkout_loop (items : list CartItem.t)
    (purchase_details : list string) (total_amount : Z) : DB LoopExit :=
  match items with
  | [] => ret (Completed purchase_details total_amount)
  | cart_item :: rest =>
      let continue :=
        checkout_loop rest
          (purchase_details ++ [purchase_detail cart_item])
          (total_amount + CartItem.total_price cart_item) in
      match get_variant_id cart_item with
      | Some variant_id =>
          current_stock <~ select_variant_quantity variant_id ;;
          match current_stock with
          | None => ret (Returned (unavailable_variant cart_item))
          | Some current_stock =>
              if current_stock <? CartItem.quantity cart_item
              then ret (Returned (unavailable_variant cart_item))
              else
                let new_quantity :=
                  current_stock - CartItem.quantity cart_item in
                _ <~ update_variant_quantity new_quantity variant_id ;;
                continue
          end
      | None =>
          current_stock <~
            select_stock_quantity (CartItem.stock_item_id cart_item) ;;
          match current_stock with
          | None => ret (Returned (unavailable_item cart_item))
          | Some current_stock =>
              if current_stock <? CartItem.quantity cart_item
              then ret (Returned (unavailable_item cart_item))
              else
                let new_quantity :=
                  current_stock - CartItem.quantity cart_item in
                _ <~ update_stock_quantity new_quantity
                       (CartItem.stock_item_id cart_item) ;;
                continue
          end
      end
  end.

Definition receipt (purchase_details : list string) (total_amount : Z)
  : string :=
  "âœ… Purchase completed successfully!" +:+ Str.nl +:+ Str.nl +:+
  "Order details:" +:+ Str.nl +:+ Str.join Str.nl purchase_details +:+
  Str.nl +:+ Str.nl +:+ "Total amount: $" +:+ Str.money total_amount +:+
  Str.nl +:+ Str.nl +:+ "Thank you for your purchase!".

(** The tool returns its message; the cart it leaves behind and the store
    are the other two components. *)
Definition complete_purchase (cart : list CartItem.t) (st : Store)
  : string * list CartItem.t * Store :=
  match cart with
  | [] =>
      ("Your cart is empty. Please add items before completing purchase.",
       cart, st)
  | _ =>
      match transaction (checkout_loop cart [] 0) st with
      | (Return (Returned message), st') => (message, cart, st')
      | (Return (Completed purchase_details total_amount), st') =>
          (receipt purchase_details total_amount, [], st')
      | (Raise _, st') =>
          ("Sorry, I encountered an error while processing your purchase. Please try again.",
           cart, st')
      end
  end.

(** The query of the variant-less branch of [get_stock_info]: the rows of
    [get_item_variants] without the [ORDER BY]. *)
Definition stock_rows (st : Store) (mapped_item : string) : list Row.t :=
  map select_row (filter (fun j => where_item mapped_item j) (left_join st)).

(** [get_stock_info].  Its variant branch runs the [FROM] and [WHERE] of
    [find_query] and reads the name, variant, quantity, unit and price of
    the first row; its second query is [variants_query]. *)
Definition get_stock_info (st : Store) (item_name variant : string) : string :=
  let mapped_item := _map_item_name item_name in
  if Str.nonempty variant && Str.nonempty (Str.strip variant) then
    let mapped_variant := _map_variant_name variant in
    match head (find_query st mapped_item mapped_variant) with
    | None =>
        match variants_query st mapped_item with
        | [] => not_in_inventory item_name
        | variants =>
            match variant_list variants with
            | None =>
                "Sorry, I encountered an error while checking stock for '" +:+
                item_name +:+ "'. Please try again."
            | Some variant_list =>
                _format_message
                  ("Sorry, I couldn't find '" +:+ variant +:+
                   "' variant of " +:+ item_name +:+
                   ". Available variants are: " +:+
                   Str.join ", " variant_list)
            end
        end
    | Some row =>
        "We have " +:+ Str.of_Z (Row.quantity row) +:+ " " +:+ Row.unit row +:+
        " of " +:+ Row.item_name row +:+ " (" +:+ Row.variant row +:+
        ") in stock at $" +:+ Str.money (Row.price row) +:+ " per " +:+
        Row.unit row +:+ "."
    end
  else
    match stock_rows st mapped_item with
    | [] => not_in_inventory item_name
    | (row0 :: _) as rows =>
        let variants_info := map variant_info rows in
        _format_message
          ("We have " +:+ Row.item_name row0 +:+
           " available in these options: " +:+ Str.join ", " variants_info)
    end.

(** The legacy [purchase_item] tool: add to the cart, then show it. *)
Definition purchase_item (st : Store) (cart : list CartItem.t)
    (item_name : string) (quantity : Z) (variant : string)
  : string * list CartItem.t :=
  let '(add_result, cart') := add_to_cart st cart item_name quantity variant in
  if Str.contains "Added" add_result then
    let cart_result := show_cart cart' in
    (add_result +:+ Str.nl +:+ Str.nl +:+ cart_result +:+ Str.nl +:+ Str.nl +:+
     "Would you like to complete this purchase or add more items?", cart')
  else (add_result, cart').

(** Modelled from the spec: the [categories(id, name)] table and the
    optional [category_id] of a stock item, which the schema of the sources
    would declare; the column is kept as a map from the item's id, an absent
    entry being NULL. *)
Record Categorized := {
  base : Store;
  category_id : gmap Z Z;
  categories : gmap Z string
}.







End Tool.

(** ** The session event log (src/chat_logger.py) *)

Module ChatLogger.

(** The part of the world the logger touches: the directories that exist,
    the contents of the files, and how often the clock has been read. *)
Record World := {
  dirs : gset string;
  files : gmap string string;
  reads : nat
}.

(** The fields of a [ChatLogger]. *)
Record t := {
  log_dir : string;
  current_session : option string;
  current_log_file : option string
}.

(** How a method call ends. *)
Inductive Outcome :=
| Done (self : t) (w : World)
| Raised (what : string) (self : t) (w : World).

(** [os.path.exists(path)]; paths are compared as they are written, and
    the empty path names nothing. *)
Definition path_exists (path : string) (w : World) : bool :=
  Str.nonempty path &&
  (bool_decide (path ∈ dirs w) || bool_decide (is_Some (files w !! path))).

(** [os.makedirs(path)], which refuses the empty path. *)
Definition makedirs (path : string) (w : World) : option World :=
  if Str.nonempty path
  then Some {| dirs := {[path]} ∪ dirs w; files := files w; reads := reads w |}
  else None.

Definition ends_with_slash (a : string) : bool :=
  match rev (list_ascii_of_string a) with
  | c :: _ => Ascii.eqb c "/"
  | [] => false
  end.

(** [os.path.join(a, b)] on a POSIX system. *)
Definition path_join (a b : string) : string :=
  match b with
  | String "/" _ => b
  | _ =>
      if negb (Str.nonempty a) || ends_with_slash a then a +:+ b
      else a +:+ "/" +:+ b
  end.

(** [ChatLogger(log_dir)]: the directory is created when nothing of that
    name exists; the fields are assigned after that. *)
Definition init (log_dir : string) (w : World) : option (t * World) :=
  let self :=
    {| log_dir := log_dir; current_session := None;
       current_log_file := None |} in
  if path_exists log_dir w then Some (self, w)
  else w' ← makedirs log_dir w; Some (self, w').

(** Python truthiness of [self.current_session]. *)
Definition has_session (self : t) : bool :=
  match current_session self with
  | Some session => Str.nonempty session
  | None => false
  end.

Section Clock_and_format.
(** The successive readings of [datetime.now()], the two ways the logger
    formats a reading, and [json.dumps] of an event given its timestamp,
    source and message: all three belong to the standard library. *)
Variable clock : nat -> Z.
Variable strftime : Z -> string.
Variable isoformat : Z -> string.
Variable dumps : string -> string -> string -> string.

(** [datetime.now()]. *)
Definition now (w : World) : Z * World :=
  (clock (reads w),
   {| dirs := dirs w; files := files w; reads := S (reads w) |}).

(** [with open(path, 'a') as f: f.write(text)]: the directory of the file
    must exist; the text goes after what the file holds. *)
Definition append_to (dir path text : string) (w : World) : option World :=
  if negb (Str.nonempty dir) || bool_decide (dir ∈ dirs w) then
    Some {| dirs := dirs w;
            files := <[path := default "" (files w !! path) +:+ text]> (files w);
            reads := reads w |}
  else None.

(** [log_event], with [start_session] unfolded at its one call site; the
    two methods call each other, and [depth] bounds the nesting of
    [log_event] calls as the interpreter's recursion limit does. *)
Fixpoint log_event (depth : nat) (source message : string)
    (self : t) (w : World) : Outcome :=
  match depth with
  | O => Raised "RecursionError" self w
  | S depth' =>
      let started :=
        if has_session self then Done self w
        else
          (* start_session *)
          let '(reading, w1) := now w in
          let timestamp := strftime reading in
          let self1 :=
            {| log_dir := log_dir self;
               current_session := Some timestamp;
               current_log_file :=
                 Some (path_join (log_dir self)
                         ("chat_session_" +:+ timestamp +:+ ".json")) |} in
          log_event depth' "system" "Chat session started" self1 w1 in
      match started with
      | Raised what self' w' => Raised what self' w'
      | Done self' w' =>
          let '(reading, w2) := now w' in
          let event := dumps (isoformat reading) source message in
          match current_log_file self' with
          | None => Raised "TypeError" self' w2
          | Some path =>
              match append_to (log_dir self') path (event +:+ Str.nl) w2 with
              | None => Raised "FileNotFoundError" self' w2
              | Some w3 => Done self' w3
              end
          end
      end
  end.

(** [start_session], called on its own. *)
Definition start_session (depth : nat) (self : t) (w : World) : Outcome :=
  let '(reading, w1) := now w in
  let timestamp := strftime reading in
  let self1 :=
    {| log_dir := log_dir self;
       current_session := Some timestamp;
       current_log_file :=
         Some (path_join (log_dir self)
                 ("chat_session_" +:+ timestamp +:+ ".json")) |} in
  log_event depth "system" "Chat session started" self1 w1.

End Clock_and_format.

End ChatLogger.

(** ** The whole system: one store, one agent session *)

Record System := {
  store : Db.Store;
  cart : list Tool.CartItem.t
}.

Inductive Operation :=
| Http (r : Main.Request)
| Checkout.

Definition step (op : Operation) (sys : System) : System :=
  match op with
  | Http r => {| store := (Main.serve r (store sys)).2; cart := cart sys |}
  | Checkout =>
      let '(_, cart', st') := Tool.complete_purchase (cart sys) (store sys) in
      {| store := st'; cart := cart' |}
  end.

(** The catalog invariant: no stored quantity is negative. *)
Definition quantities_nonneg (st : Db.Store) : Prop :=
  map_Forall (fun _ r => 0 <= Db.s_quantity r) (Db.stock_items st) /\
  map_Forall (fun _ v => 0 <= Db.v_quantity v) (Db.item_variants st).

(** Ids come from the sequence, which starts at 1 and only grows. *)
Definition ids_generated (st : Db.Store) : Prop :=
  0 < Db.stock_items_id_seq st /\
  map_Forall (fun i _ => 0 < i < Db.stock_items_id_seq st) (Db.stock_items st).

(** ** Vocabulary of the specification *)

(** The three kinds of name the normalizer knows. *)
Inductive Kind := item | variant | category.

Definition mapping_table (kind : Kind) : gmap string string :=
  match kind with
  | item => ITEM_MAPPINGS
  | variant => VARIANT_MAPPINGS
  | category => CATEGORY_MAPPINGS
  end.

(** [normalize(kind, text)] is the agent's mapping method for that kind. *)
Definition normalize (kind : Kind) (text : string) : string :=
  match kind with
  | item => _map_item_name text
  | variant => _map_variant_name text
  | category => _map_category_name text
  end.

(** The contract of the normalizer in the specification's words: look the
    trimmed, lower-cased input up in the kind's table, fall back to the
    input. *)
Definition normalize_spec (kind : Kind) (text : string) : string :=
  match mapping_table kind !! Str.lower (Str.strip text) with
  | Some canonical => canonical
  | None => text
  end.

(** The row a cart line is checked against and decremented at checkout. *)
Inductive Backing :=
| Variant_row (variant_id : Z)
| Stock_row (stock_item_id : Z).

Global Instance Backing_eq_dec : EqDecision Backing.
Proof. solve_decision. Defined.

(** A line carries a variant id when the id is present and not 0, which is
    how the branch condition of the checkout loop reads it; such a line is
    backed by that variant row, any other line by its stock row. *)
Definition backing (line : Tool.CartItem.t) : Backing :=
  match Tool.CartItem.variant_id line with
  | Some vid =>
      if vid =? 0 then Stock_row (Tool.CartItem.stock_item_id line)
      else Variant_row vid
  | None => Stock_row (Tool.CartItem.stock_item_id line)
  end.

(** The live quantity of a row, if the row exists. *)
Definition live (st : Db.Store) (b : Backing) : option Z :=
  match b with
  | Variant_row vid => Db.v_quantity <$> Db.item_variants st !! vid
  | Stock_row sid => Db.s_quantity <$> Db.stock_items st !! sid
  end.




(** The refusal that names a line. *)
Definition unavailable (line : Tool.CartItem.t) : string :=
  match backing line with
  | Variant_row _ => Tool.unavailable_variant line
  | Stock_row _ => Tool.unavailable_item line
  end.

(** The row [add_to_cart] resolves its arguments to. *)
Definition resolve (st : Db.Store) (item_name variant : string)
  : option Tool.Row.t :=
  head (Tool.find_query st (_map_item_name item_name)
          (if Str.nonempty variant && Str.nonempty (Str.strip variant)
           then _map_variant_name variant else "Default")).

(** The cart line [add_to_cart] builds from a resolved row. *)
Definition line_of (row : Tool.Row.t) (quantity : Z) : Tool.CartItem.t :=
  {| Tool.CartItem.item_name := Tool.Row.item_name row;
     Tool.CartItem.variant := Tool.Row.variant row;
     Tool.CartItem.quantity := quantity;
     Tool.CartItem.unit := Tool.Row.unit row;
     Tool.CartItem.price_per_unit := Tool.Row.price row;
     Tool.CartItem.total_price := Tool.Row.price row * quantity;
     Tool.CartItem.variant_id := Tool.Row.variant_id row;
     Tool.CartItem.stock_item_id := Tool.Row.stock_item_id row |}.

(** Writing quantity [q] into a row, as the checkout loop does. *)
Definition set_quantity (st : Db.Store) (b : Backing) (q : Z) : Db.Store :=
  match b with
  | Variant_row vid => (Db.update_variant_quantity q vid st).2
  | Stock_row sid => (Db.update_stock_quantity q sid st).2
  end.


(** The message of a successful [add_to_cart]. *)
Definition added (row : Tool.Row.t) (quantity cart_total : Z) : string :=
  "Added " +:+ Str.of_Z quantity +:+ " " +:+ Tool.Row.unit row +:+
  " of " +:+ Tool.Row.item_name row +:+ " (" +:+ Tool.Row.variant row +:+
  ") to cart at $" +:+ Str.money (Tool.Row.price row) +:+ " each = $" +:+
  Str.money (Tool.Row.price row * quantity) +:+ ". Cart total: $" +:+
  Str.money cart_total.

(** The refusal of [add_to_cart] when the row holds too little. *)
Definition only_have (row : Tool.Row.t) : string :=
  "Sorry, we only have " +:+ Str.of_Z (Tool.Row.quantity row) +:+ " " +:+
  Tool.Row.unit row +:+ " of " +:+ Tool.Row.item_name row +:+ " (" +:+
  Tool.Row.variant row +:+ ") available.".

(** ** A small catalog used in the examples *)

Module Example.
Import Db.

Definition coke : StockRow :=
  {| s_item_name := "Coke"; s_quantity := 5; s_unit := "bottles";
     s_price := Some 150 |}.

Definition lays : StockRow :=
  {| s_item_name := "Lays"; s_quantity := 1; s_unit := "packs";
     s_price := Some 250 |}.

Definition coke_regular : VariantRow :=
  {| v_stock_item_id := 1; v_variant := "Regular"; v_quantity := 4;
     v_unit := "bottles"; v_price := 120 |}.

Definition catalog : Store :=
  {| stock_items := <[1 := coke]> (<[2 := lays]> ∅);
     item_variants := <[1 := coke_regular]> ∅;
     stock_items_id_seq := 3 |}.

(** A catalog of items without variants. *)
Definition plain : Store :=
  {| stock_items := <[1 := coke]> (<[2 := lays]> ∅);
     item_variants := ∅;
     stock_items_id_seq := 3 |}.

(** The row the name "cola" resolves to in [plain]. *)
Definition coke_row : Tool.Row.t :=
  {| Tool.Row.stock_item_id := 1; Tool.Row.item_name := "Coke";
     Tool.Row.variant := "Default"; Tool.Row.quantity := 5;
     Tool.Row.unit := "bottles"; Tool.Row.price := 0;
     Tool.Row.variant_id := None |}.

(** The row "cola", "small" resolves to in [catalog]. *)
Definition coke_regular_row : Tool.Row.t :=
  {| Tool.Row.stock_item_id := 1; Tool.Row.item_name := "Coke";
     Tool.Row.variant := "Regular"; Tool.Row.quantity := 4;
     Tool.Row.unit := "bottles"; Tool.Row.price := 120;
     Tool.Row.variant_id := Some 1 |}.

(** The cart after asking twice for three bottles of cola in [plain],
    which holds five. *)
Definition two_lines : list Tool.CartItem.t :=
  (Tool.add_to_cart plain
     (Tool.add_to_cart plain [] "cola" 3 "").2 "cola" 3 "").2.

Definition session : System := {| store := plain; cart := two_lines |}.

(** Requests against the catalog. *)
Definition create_coke : Main.StockItemCreate.t :=
  {| Main.StockItemCreate.item_name := "coke";
     Main.StockItemCreate.quantity := 3;
     Main.StockItemCreate.unit := "cans" |}.

Definition create_widget : Main.StockItemCreate.t :=
  {| Main.StockItemCreate.item_name := "Widget";
     Main.StockItemCreate.quantity := 10;
     Main.StockItemCreate.unit := "pieces" |}.

Definition set_unit_cans : Main.StockItemUpdate.t :=
  {| Main.StockItemUpdate.item_name := None;
     Main.StockItemUpdate.quantity := None;
     Main.StockItemUpdate.unit := Some "cans" |}.

(** A purchase over HTTP followed by the agent's checkout. *)
Definition run : list Operation :=
  [Http (Main.POST_purchase
           {| Main.PurchaseRequest.item_id := 2;
              Main.PurchaseRequest.quantity := 1 |});
   Checkout].

(** The example catalog with its categories: Coke is a drink, Lays has no
    category. *)
Definition shelves : Tool.Categorized :=
  {| Tool.base := catalog;
     Tool.category_id := <[1 := 10]> ∅;
     Tool.categories := <[10 := "Drinks"]> (<[11 := "Snacks"]> ∅) |}.

(** A world without files or directories, a clock that ticks once per
    reading, and stand-ins for the formatting functions of the library. *)
Definition nothing : ChatLogger.World :=
  {| ChatLogger.dirs := ∅; ChatLogger.files := ∅; ChatLogger.reads := 0 |}.

Definition ticks (n : nat) : Z := Z.of_nat n.

Definition stamp (reading : Z) : string := "t" +:+ Str.of_Z reading.

Definition record (timestamp source message : string) : string :=
  timestamp +:+ " " +:+ source +:+ ": " +:+ message.

Definition greeting : list (string * string) :=
  [("caller", "hello"); ("agent", "hi")].

End Example.

(** ** Vocabulary of the further properties *)

(** The item a handler shows for a stored row. *)
Definition shown (row : Z * Db.StockRow) : Main.StockItem.t :=
  {| Main.StockItem.id := row.1;
     Main.StockItem.item_name := Db.s_item_name row.2;
     Main.StockItem.quantity := Db.s_quantity row.2;
     Main.StockItem.unit := Db.s_unit row.2 |}.

(** The characters that [LIKE] reads as something other than themselves. *)
Definition like_special (c : ascii) : bool :=
  Ascii.eqb c "%" || Ascii.eqb c "_" || Ascii.eqb c "\".

(** A search text without characters that [LIKE] reads specially. *)
Definition plain_text (text : string) : bool :=
  forallb (fun c => negb (like_special c)) (list_ascii_of_string text).

(** No variant row refers to the item. *)
Definition unreferenced (st : Db.Store) (item_id : Z) : Prop :=
  forall vid v,
    Db.item_variants st !! vid = Some v -> Db.v_stock_item_id v <> item_id.

(** The outcome of a handler is a value or an [HTTPException] whose status
    is one of [codes]. *)
Definition answers_within {A} (codes : list Z) (r : Db.Exit A * Db.Store)
  : Prop :=
  match r.1 with
  | Db.Return _ => True
  | Db.Raise (Db.HTTPException code _) => code ∈ codes
  | Db.Raise (Db.Exception _) => False
  end.




(** What checkout never writes: the columns of a row other than its
    quantity. *)
Definition stock_frame (r : Db.StockRow) : string * string * option Z :=
  (Db.s_item_name r, Db.s_unit r, Db.s_price r).

Definition variant_frame (v : Db.VariantRow) : Z * string * string * Z :=
  (Db.v_stock_item_id v, Db.v_variant v, Db.v_unit v, Db.v_price v).

(** Two stores with the same rows up to their quantities. *)
Definition same_but_quantities (st st' : Db.Store) : Prop :=
  Db.stock_items_id_seq st' = Db.stock_items_id_seq st
  /\ (forall i, stock_frame <$> Db.stock_items st' !! i =
                stock_frame <$> Db.stock_items st !! i)
  /\ (forall i, variant_frame <$> Db.item_variants st' !! i =
                variant_frame <$> Db.item_variants st !! i).

(** The caller named a variant: the test [variant and variant.strip()]. *)
Definition names_variant (variant : string) : bool :=
  Str.nonempty variant && Str.nonempty (Str.strip variant).

(** The answer of [get_stock_info] for a row it found. *)
Definition in_stock (row : Tool.Row.t) : string :=
  "We have " +:+ Str.of_Z (Tool.Row.quantity row) +:+ " " +:+
  Tool.Row.unit row +:+ " of " +:+ Tool.Row.item_name row +:+ " (" +:+
  Tool.Row.variant row +:+ ") in stock at $" +:+
  Str.money (Tool.Row.price row) +:+ " per " +:+ Tool.Row.unit row +:+ ".".

(** What the legacy [purchase_item] appends to a reply it takes for a
    success. *)
Definition with_cart_shown (add_result : string) (cart : list Tool.CartItem.t)
  : string :=
  add_result +:+ Str.nl +:+ Str.nl +:+ Tool.show_cart cart +:+ Str.nl +:+
  Str.nl +:+ "Would you like to complete this purchase or add more items?".

(** The logger and the world a call leaves behind. *)
Definition logger_of (r : ChatLogger.Outcome) : ChatLogger.t :=
  match r with
  | ChatLogger.Done self _ => self
  | ChatLogger.Raised _ self _ => self
  end.

Definition world_of (r : ChatLogger.Outcome) : ChatLogger.World :=
  match r with
  | ChatLogger.Done _ w => w
  | ChatLogger.Raised _ _ w => w
  end.

(** Logging a series of (source, message) events, stopping at the first
    call that raises. *)
Fixpoint log_all (clock : nat -> Z) (strftime isoformat : Z -> string)
    (dumps : string -> string -> string -> string) (depth : nat)
    (events : list (string * string))
    (self : ChatLogger.t) (w : ChatLogger.World) : ChatLogger.Outcome :=
  match events with
  | [] => ChatLogger.Done self w
  | event :: rest =>
      match ChatLogger.log_event clock strftime isoformat dumps depth
              event.1 event.2 self w with
      | ChatLogger.Done self' w' =>
          log_all clock strftime isoformat dumps depth rest self' w'
      | raised => raised
      end
  end.

(** The lines of a series of events whose timestamps are the clock
    readings from the [first]-th on. *)
Fixpoint event_lines (clock : nat -> Z) (isoformat : Z -> string)
    (dumps : string -> string -> string -> string) (first : nat)
    (events : list (string * string)) : string :=
  match events with
  | [] => ""
  | event :: rest =>
      dumps (isoformat (clock first)) event.1 event.2 +:+ Str.nl +:+
      event_lines clock isoformat dumps (S first) rest
  end.

(** The logger's directory exists, so that it can open its file. *)
Definition can_write (self : ChatLogger.t) (w : ChatLogger.World) : Prop :=
  ChatLogger.log_dir self ∈ ChatLogger.dirs w.

(** * Properties *)

(** ** Strings *)

Lemma is_space_lower_char c : Str.is_space (Str.lower_char c) = Str.is_space c.
Proof. by destruct c as [[] [] [] [] [] [] [] []]. Qed.

Lemma drop_while_lower l :
  Str.drop_while Str.is_space (map Str.lower_char l) =
  map Str.lower_char (Str.drop_while Str.is_space l).
Proof.
  induction l as [|c l IH]; [done|].
  cbn [map Str.drop_while]. rewrite is_space_lower_char.
  by destruct (Str.is_space c).
Qed.

Lemma trim_with_lower l :
  Str.trim_with Str.is_space (map Str.lower_char l) =
  map Str.lower_char (Str.trim_with Str.is_space l).
Proof.
  unfold Str.trim_with.
  by rewrite drop_while_lower, <- map_rev, drop_while_lower, map_rev.
Qed.

(** Lower-casing and stripping commute, so the order in which the source
    applies them is immaterial. *)
Lemma strip_lower s : Str.strip (Str.lower s) = Str.lower (Str.strip s).
Proof.
  unfold Str.strip, Str.lower.
  by rewrite !list_ascii_of_string_of_list_ascii, trim_with_lower.
Qed.

Lemma normalize_refines kind text : normalize kind text = normalize_spec kind text.
Proof.
  unfold normalize_spec.
  destruct kind; cbn [normalize mapping_table];
    unfold _map_item_name, _map_variant_name, _map_category_name, dict_get;
    by rewrite strip_lower.
Qed.


(** ** Purchases through the REST interface *)

Ltac db_unfold :=
  unfold Db.guard, Db.transaction, Db.bind, Db.ret, Db.raise,
    Db.select_stock, Db.select_stock_id, Db.select_id_by_name,
    Db.update_stock_quantity, Db.update_stock_add, Db.update_stock_set,
    Db.select_stock_quantity, Db.select_variant_quantity,
    Db.update_variant_quantity, Main.StockItem.of_row in *.

Lemma purchase_item_absent st purchase :
  Db.stock_items st !! Main.PurchaseRequest.item_id purchase = None ->
  Main.purchase_item purchase st =
    (Db.Raise (Main.not_found (Main.PurchaseRequest.item_id purchase)), st).
Proof.
  intros Hnone. unfold Main.purchase_item. db_unfold.
  by rewrite Hnone.
Qed.

Lemma purchase_item_short st purchase row :
  Db.stock_items st !! Main.PurchaseRequest.item_id purchase = Some row ->
  Db.s_quantity row < Main.PurchaseRequest.quantity purchase ->
  Main.purchase_item purchase st =
    (Db.Raise
       (Db.HTTPException 400
          ("Insufficient stock. Available: " +:+
           Str.of_Z (Db.s_quantity row) +:+ ", Requested: " +:+
           Str.of_Z (Main.PurchaseRequest.quantity purchase))), st).
Proof.
  intros Hrow Hlt. unfold Main.purchase_item. db_unfold.
  rewrite Hrow. cbn.
  destruct (Z.ltb_spec (Db.s_quantity row)
              (Main.PurchaseRequest.quantity purchase)); [done | lia].
Qed.

Lemma purchase_item_enough st purchase row :
  Db.stock_items st !! Main.PurchaseRequest.item_id purchase = Some row ->
  Main.PurchaseRequest.quantity purchase <= Db.s_quantity row ->
  exists receipt,
    Main.purchase_item purchase st =
      (Db.Return receipt,
       Db.with_stock_items st
         (<[Main.PurchaseRequest.item_id purchase :=
              Db.assign row
                (Db.Set_quantity
                   (Db.s_quantity row - Main.PurchaseRequest.quantity purchase))]>
            (Db.stock_items st)))
    /\ Main.PurchaseResponse.remaining_quantity receipt =
         Db.s_quantity row - Main.PurchaseRequest.quantity purchase
    /\ Main.PurchaseResponse.purchased_quantity receipt =
         Main.PurchaseRequest.quantity purchase.
Proof.
  intros Hrow Hle. unfold Main.purchase_item. db_unfold.
  rewrite Hrow. cbn.
  destruct (Z.ltb_spec (Db.s_quantity row)
              (Main.PurchaseRequest.quantity purchase)); [lia|].
  rewrite Hrow. eexists. split; [reflexivity|]. by cbn.
Qed.

Lemma get_stock_by_id_present st item_id row :
  Db.stock_items st !! item_id = Some row ->
  0 <= Db.s_quantity row ->
  Main.get_stock_by_id item_id st =
    (Db.Return
       {| Main.StockItem.id := item_id;
          Main.StockItem.item_name := Db.s_item_name row;
          Main.StockItem.quantity := Db.s_quantity row;
          Main.StockItem.unit := Db.s_unit row |}, st).
Proof.
  intros Hrow Hq. unfold Main.get_stock_by_id. db_unfold.
  rewrite Hrow. cbn.
  destruct (Z.leb_spec 0 (Db.s_quantity row)); [done | lia].
Qed.

(** C3. A purchase of [q > 0] units of an existing item holding [Q] units
    stores and returns [Q - q] when [q <= Q], so that reading the item back
    shows [Q - q]; it fails with status 400 and leaves the store as it was
    when [q > Q]; and a purchase of an absent id fails with status 404. *)
Theorem purchase_item_exact (st : Db.Store) (item_id q : Z) :
  0 < q ->
  let purchase :=
    {| Main.PurchaseRequest.item_id := item_id;
       Main.PurchaseRequest.quantity := q |} in
  match Db.stock_items st !! item_id with
  | None =>
      Main.purchase_item purchase st = (Db.Raise (Main.not_found item_id), st)
  | Some row =>
      let Q := Db.s_quantity row in
      if q <=? Q then
        exists receipt st' shown,
          Main.purchase_item purchase st = (Db.Return receipt, st')
          /\ Main.PurchaseResponse.remaining_quantity receipt = Q - q
          /\ Db.s_quantity <$> Db.stock_items st' !! item_id = Some (Q - q)
          /\ Main.get_stock_by_id item_id st' = (Db.Return shown, st')
          /\ Main.StockItem.quantity shown = Q - q
      else
        exists detail,
          Main.purchase_item purchase st =
            (Db.Raise (Db.HTTPException 400 detail), st)
  end.
Proof.
  intros Hq purchase.
  destruct (Db.stock_items st !! item_id) as [row|] eqn:Hrow.
  - cbn zeta. destruct (Z.leb_spec q (Db.s_quantity row)) as [Hle|Hlt].
    + destruct (purchase_item_enough st purchase row Hrow Hle)
        as (receipt & Hrun & Hrem & _).
      subst purchase.
      cbn [Main.PurchaseRequest.item_id Main.PurchaseRequest.quantity] in *.
      eexists receipt, _, _. split; [exact Hrun|].
      split; [exact Hrem|].
      assert (Hnew : Db.stock_items
                (Db.with_stock_items st
                   (<[item_id := Db.assign row (Db.Set_quantity
                        (Db.s_quantity row - q))]> (Db.stock_items st)))
                !! item_id
              = Some (Db.assign row (Db.Set_quantity (Db.s_quantity row - q)))).
      { cbn. apply lookup_insert_eq. }
      split; [by rewrite Hnew|].
      split.
      * apply (get_stock_by_id_present _ _ _ Hnew).
        cbn [Db.assign Db.s_quantity]. lia.
      * reflexivity.
    + eexists. by apply (purchase_item_short st purchase row Hrow).
  - by apply (purchase_item_absent st purchase).
Qed.

(** Buying all five bottles of Coke in the example catalog. *)
Lemma purchase_item_exact_witness :
  0 < 5 /\
  exists receipt st' shown,
    Main.purchase_item
      {| Main.PurchaseRequest.item_id := 1;
         Main.PurchaseRequest.quantity := 5 |} Example.catalog
    = (Db.Return receipt, st')
    /\ Main.PurchaseResponse.remaining_quantity receipt = 5 - 5
    /\ Db.s_quantity <$> Db.stock_items st' !! 1 = Some (5 - 5)
    /\ Main.get_stock_by_id 1 st' = (Db.Return shown, st')
    /\ Main.StockItem.quantity shown = 5 - 5.
Proof.
  split; [lia|].
  exact (purchase_item_exact Example.catalog 1 5 ltac:(lia)).
Defined.

(** ** Creating and updating items *)

Lemma head_filter_hit {A} (P : A -> Prop) `{!forall x, Decision (P x)}
    (l : list A) (x : A) :
  x ∈ l -> P x -> exists y, head (filter P l) = Some y /\ y ∈ l /\ P y.
Proof.
  intros Hin HP.
  assert (Hx : x ∈ filter P l) by (apply list_elem_of_filter; done).
  destruct (filter P l) as [|y l'] eqn:Hf; [by apply elem_of_nil in Hx|].
  exists y. split; [done|].
  assert (Hy : y ∈ filter P l) by (rewrite Hf; left).
  by apply list_elem_of_filter in Hy as [? ?].
Qed.

Lemma head_filter_miss {A} (P : A -> Prop) `{!forall x, Decision (P x)}
    (l : list A) :
  (forall x, x ∈ l -> ~ P x) -> head (filter P l) = None.
Proof.
  intros Hnone.
  destruct (filter P l) as [|y l'] eqn:Hf; [done|].
  assert (Hy : y ∈ filter P l) by (rewrite Hf; left).
  apply list_elem_of_filter in Hy as [HP Hin]. by apply Hnone in Hin.
Qed.

Lemma select_id_by_name_hit st name i r :
  Db.stock_items st !! i = Some r ->
  Str.lower (Db.s_item_name r) = Str.lower name ->
  exists j, Db.select_id_by_name name st = (Db.Return (Some j), st)
            /\ is_Some (Db.stock_items st !! j).
Proof.
  intros Hi Hname. unfold Db.select_id_by_name.
  destruct (head_filter_hit
              (fun r : Z * Db.StockRow =>
                 Str.lower (Db.s_item_name r.2) = Str.lower name)
              (map_to_list (Db.stock_items st)) (i, r))
    as ([j r'] & Hhead & Hin & _); [by apply elem_of_map_to_list | done |].
  exists j. rewrite Hhead. split; [done|].
  apply elem_of_map_to_list in Hin. by eexists.
Qed.

Lemma select_id_by_name_miss st name :
  (forall i r, Db.stock_items st !! i = Some r ->
               Str.lower (Db.s_item_name r) <> Str.lower name) ->
  Db.select_id_by_name name st = (Db.Return None, st).
Proof.
  intros Hnone. unfold Db.select_id_by_name.
  rewrite head_filter_miss; [done|].
  intros [i r] Hin. apply elem_of_map_to_list in Hin. by apply (Hnone i r).
Qed.

Lemma ids_generated_truthy st i :
  ids_generated st -> is_Some (Db.stock_items st !! i) ->
  Db.truthy (Some i) = true.
Proof.
  intros [_ Hids] [r Hr]. apply Hids in Hr. cbn.
  destruct (Z.eqb_spec i 0); [lia | done].
Qed.

Lemma ids_generated_fresh st :
  ids_generated st -> Db.stock_items st !! Db.stock_items_id_seq st = None.
Proof.
  intros [_ Hids].
  destruct (Db.stock_items st !! Db.stock_items_id_seq st) eqn:Hr; [|done].
  apply Hids in Hr. lia.
Qed.

Lemma add_stock_conflict st req i r :
  ids_generated st ->
  Db.stock_items st !! i = Some r ->
  Str.lower (Db.s_item_name r) = Str.lower (Main.StockItemCreate.item_name req) ->
  Main.add_stock req st =
    (Db.Raise
       (Db.HTTPException 400
          ("Item '" +:+ Main.StockItemCreate.item_name req +:+
           "' already exists. Use PUT to update quantity.")), st).
Proof.
  intros Hids Hi Hname.
  destruct (select_id_by_name_hit st _ i r Hi Hname) as (j & Hsel & Hj).
  unfold Main.add_stock, Db.guard, Db.bind. rewrite Hsel.
  by rewrite (ids_generated_truthy st j Hids Hj).
Qed.

Lemma add_stock_fresh st req :
  ids_generated st ->
  Main.StockItemCreate.valid req = true ->
  (forall i r, Db.stock_items st !! i = Some r ->
     Str.lower (Db.s_item_name r) <>
     Str.lower (Main.StockItemCreate.item_name req)) ->
  Main.add_stock req st =
    (Db.Return
       {| Main.StockItem.id := Db.stock_items_id_seq st;
          Main.StockItem.item_name := Main.StockItemCreate.item_name req;
          Main.StockItem.quantity := Main.StockItemCreate.quantity req;
          Main.StockItem.unit := Main.StockItemCreate.unit req |},
     {| Db.stock_items :=
          <[Db.stock_items_id_seq st :=
              {| Db.s_item_name := Main.StockItemCreate.item_name req;
                 Db.s_quantity := Main.StockItemCreate.quantity req;
                 Db.s_unit := Main.StockItemCreate.unit req;
                 Db.s_price := None |}]> (Db.stock_items st);
        Db.item_variants := Db.item_variants st;
        Db.stock_items_id_seq := Db.stock_items_id_seq st + 1 |}).
Proof.
  intros Hids Hvalid Hnone.
  unfold Main.add_stock, Db.guard, Db.bind.
  rewrite (select_id_by_name_miss st _ Hnone). cbn [Db.truthy].
  unfold Db.insert_stock. rewrite (ids_generated_fresh st Hids).
  unfold Main.StockItem.of_row, Main.StockItemCreate.valid in *.
  cbn [snd fst Db.s_quantity]. by rewrite Hvalid.
Qed.

Lemma ids_generated_insert st row :
  ids_generated st ->
  ids_generated
    {| Db.stock_items := <[Db.stock_items_id_seq st := row]> (Db.stock_items st);
       Db.item_variants := Db.item_variants st;
       Db.stock_items_id_seq := Db.stock_items_id_seq st + 1 |}.
Proof.
  intros [Hseq Hids]. split; cbn; [lia|].
  apply map_Forall_insert_2; [lia|].
  intros i r Hr. apply Hids in Hr. lia.
Qed.

Lemma example_catalog_ids : ids_generated Example.catalog.
Proof.
  split; [done|]. cbn.
  repeat (apply map_Forall_insert_2; [lia|]). apply map_Forall_empty.
Qed.

Lemma example_catalog_nonneg : quantities_nonneg Example.catalog.
Proof.
  split; cbn;
    repeat (apply map_Forall_insert_2; [cbn; lia|]); apply map_Forall_empty.
Qed.

Lemma example_catalog_no_widget i r :
  Db.stock_items Example.catalog !! i = Some r ->
  Str.lower (Db.s_item_name r) <> Str.lower "Widget".
Proof.
  cbn. intros Hr.
  apply lookup_insert_Some in Hr as [[_ <-]|[_ Hr]]; [by vm_compute|].
  apply lookup_insert_Some in Hr as [[_ <-]|[_ Hr]]; [by vm_compute|].
  by rewrite lookup_empty in Hr.
Qed.

(** C6. Creating an item fails with status 400 whenever an existing item
    bears the requested name up to letter case, and otherwise inserts a row
    under a freshly generated id and returns it with exactly the supplied
    name, quantity and unit; after that, reading the id back shows the row,
    and a second create with the same name in any case fails with 400. *)
Theorem add_stock_conflict_or_insert
    (st : Db.Store) (req : Main.StockItemCreate.t) :
  ids_generated st ->
  Main.StockItemCreate.valid req = true ->
  ((exists i r,
       Db.stock_items st !! i = Some r /\
       Str.lower (Db.s_item_name r) =
       Str.lower (Main.StockItemCreate.item_name req)) ->
   exists detail,
     Main.add_stock req st = (Db.Raise (Db.HTTPException 400 detail), st))
  /\
  ((forall i r,
       Db.stock_items st !! i = Some r ->
       Str.lower (Db.s_item_name r) <>
       Str.lower (Main.StockItemCreate.item_name req)) ->
   exists created st',
     Main.add_stock req st = (Db.Return created, st')
     /\ Main.StockItem.item_name created = Main.StockItemCreate.item_name req
     /\ Main.StockItem.quantity created = Main.StockItemCreate.quantity req
     /\ Main.StockItem.unit created = Main.StockItemCreate.unit req
     /\ Db.stock_items st !! Main.StockItem.id created = None
     /\ Db.stock_items st' =
          <[Main.StockItem.id created :=
              {| Db.s_item_name := Main.StockItemCreate.item_name req;
                 Db.s_quantity := Main.StockItemCreate.quantity req;
                 Db.s_unit := Main.StockItemCreate.unit req;
                 Db.s_price := None |}]> (Db.stock_items st)
     /\ Main.get_stock_by_id (Main.StockItem.id created) st' =
          (Db.Return created, st')
     /\ forall again,
          Str.lower (Main.StockItemCreate.item_name again) =
          Str.lower (Main.StockItemCreate.item_name req) ->
          exists detail,
            Main.add_stock again st' =
              (Db.Raise (Db.HTTPException 400 detail), st')).
Proof.
  intros Hids Hvalid. split.
  - intros (i & r & Hi & Hname). eexists.
    by apply (add_stock_conflict st req i r).
  - intros Hnone. eexists _, _.
    split; [by apply add_stock_fresh|].
    cbn [Main.StockItem.item_name Main.StockItem.quantity Main.StockItem.unit
         Main.StockItem.id Db.stock_items].
    do 3 (split; [reflexivity|]).
    split; [by apply ids_generated_fresh|].
    split; [reflexivity|].
    split.
    + rewrite (get_stock_by_id_present _ _
                 {| Db.s_item_name := Main.StockItemCreate.item_name req;
                    Db.s_quantity := Main.StockItemCreate.quantity req;
                    Db.s_unit := Main.StockItemCreate.unit req;
                    Db.s_price := None |});
        [reflexivity | apply lookup_insert_eq |].
      cbn. unfold Main.StockItemCreate.valid in Hvalid. lia.
    + intros again Hsame. eexists.
      eapply add_stock_conflict;
        [by apply ids_generated_insert | apply lookup_insert_eq | by cbn].
Qed.

(** In the example catalog "coke" collides with "Coke", and "Widget" is
    new and receives id 3. *)
Lemma add_stock_conflict_or_insert_witness :
  ids_generated Example.catalog /\
  Main.StockItemCreate.valid Example.create_coke = true /\
  Main.StockItemCreate.valid Example.create_widget = true /\
  (exists i r,
      Db.stock_items Example.catalog !! i = Some r /\
      Str.lower (Db.s_item_name r) =
      Str.lower (Main.StockItemCreate.item_name Example.create_coke)) /\
  (exists detail,
      Main.add_stock Example.create_coke Example.catalog =
        (Db.Raise (Db.HTTPException 400 detail), Example.catalog)) /\
  (exists created st',
      Main.add_stock Example.create_widget Example.catalog =
        (Db.Return created, st')
      /\ Main.StockItem.id created = 3
      /\ Main.StockItem.item_name created = "Widget"
      /\ Main.StockItem.quantity created = 10
      /\ Main.StockItem.unit created = "pieces").
Proof.
  assert (Hex : exists i r,
             Db.stock_items Example.catalog !! i = Some r /\
             Str.lower (Db.s_item_name r) =
             Str.lower (Main.StockItemCreate.item_name Example.create_coke)).
  { exists 1, Example.coke. split; reflexivity. }
  split; [exact example_catalog_ids|].
  split; [reflexivity|].
  split; [reflexivity|].
  split; [exact Hex|].
  split.
  - exact (proj1 (add_stock_conflict_or_insert Example.catalog
                    Example.create_coke example_catalog_ids eq_refl) Hex).
  - destruct (proj2 (add_stock_conflict_or_insert Example.catalog
                       Example.create_widget example_catalog_ids eq_refl)
                example_catalog_no_widget)
      as (created & st' & Hrun & Hname & Hqty & Hunit & _).
    exists created, st'. split; [exact Hrun|].
    split; [|by rewrite Hname, Hqty, Hunit].
    unfold Main.add_stock in Hrun. vm_compute in Hrun.
    by injection Hrun as <- _.
Defined.

Lemma update_stock_absent st item_id upd :
  Db.stock_items st !! item_id = None ->
  Main.update_stock item_id upd st = (Db.Raise (Main.not_found item_id), st).
Proof.
  intros Hnone. unfold Main.update_stock. db_unfold. by rewrite Hnone.
Qed.

Lemma update_stock_present st item_id upd row :
  ids_generated st ->
  Db.stock_items st !! item_id = Some row ->
  Main.update_stock item_id upd st =
    match Main.update_fields upd with
    | [] => (Db.Raise (Db.HTTPException 400 "No fields to update"), st)
    | fields =>
        let row' := foldl Db.assign row fields in
        if 0 <=? Db.s_quantity row' then
          (Db.Return
             {| Main.StockItem.id := item_id;
                Main.StockItem.item_name := Db.s_item_name row';
                Main.StockItem.quantity := Db.s_quantity row';
                Main.StockItem.unit := Db.s_unit row' |},
           Db.with_stock_items st (<[item_id := row']> (Db.stock_items st)))
        else
          (Db.Raise (Db.HTTPException 500 "Failed to update stock item"),
           Db.with_stock_items st (<[item_id := row']> (Db.stock_items st)))
    end.
Proof.
  intros Hids Hrow.
  assert (Htruthy : Db.truthy (Some item_id) = true)
    by (apply (ids_generated_truthy st); [done | by eexists]).
  unfold Main.update_stock, Db.guard, Db.bind, Db.select_stock_id.
  rewrite Hrow. cbn [fmap option_fmap option_map]. rewrite Htruthy.
  cbn [negb].
  destruct (Main.update_fields upd) as [|a fields]; [done|].
  unfold Db.update_stock_set, Main.StockItem.of_row, Db.ret, Db.raise.
  rewrite Hrow. cbn [fst snd].
  by destruct (0 <=? _).
Qed.



(** ** The catalog invariant *)

Lemma nonneg_with_stock st i row :
  quantities_nonneg st -> 0 <= Db.s_quantity row ->
  quantities_nonneg (Db.with_stock_items st (<[i := row]> (Db.stock_items st))).
Proof.
  intros [Hs Hv] Hrow. split; cbn; [|done].
  by apply map_Forall_insert_2.
Qed.

Lemma nonneg_with_variant st i v :
  quantities_nonneg st -> 0 <= Db.v_quantity v ->
  quantities_nonneg
    (Db.with_item_variants st (<[i := v]> (Db.item_variants st))).
Proof.
  intros [Hs Hv] Hrow. split; cbn; [done|].
  by apply map_Forall_insert_2.
Qed.

Lemma nonneg_lookup_stock st i row :
  quantities_nonneg st -> Db.stock_items st !! i = Some row ->
  0 <= Db.s_quantity row.
Proof. intros [Hs _] Hrow. by apply Hs in Hrow. Qed.

Lemma nonneg_lookup_variant st i v :
  quantities_nonneg st -> Db.item_variants st !! i = Some v ->
  0 <= Db.v_quantity v.
Proof. intros [_ Hv] Hrow. by apply Hv in Hrow. Qed.

Lemma add_stock_nonneg st req :
  quantities_nonneg st -> Main.StockItemCreate.valid req = true ->
  quantities_nonneg (Main.add_stock req st).2.
Proof.
  intros Hst Hvalid. unfold Main.StockItemCreate.valid in Hvalid.
  unfold Main.add_stock, Db.guard, Db.bind, Db.select_id_by_name,
    Db.insert_stock, Main.StockItem.of_row, Db.ret, Db.raise.
  repeat case_match; simplify_eq/=; try done;
    try (destruct Hst as [Hs Hv]; split; cbn; [|done];
         apply map_Forall_insert_2; [cbn; lia | done]).
Qed.

Lemma foldl_assign_nonneg row upd :
  0 <= Db.s_quantity row -> Main.StockItemUpdate.valid upd = true ->
  0 <= Db.s_quantity (foldl Db.assign row (Main.update_fields upd)).
Proof.
  intros Hrow Hvalid.
  unfold Main.update_fields, Main.StockItemUpdate.valid in *.
  destruct upd as [[name|] [qty|] [unit|]]; cbn in *; lia.
Qed.

Lemma update_stock_nonneg st item_id upd :
  quantities_nonneg st -> Main.StockItemUpdate.valid upd = true ->
  quantities_nonneg (Main.update_stock item_id upd st).2.
Proof.
  intros Hst Hvalid.
  unfold Main.update_stock, Db.guard, Db.bind, Db.select_stock_id,
    Db.update_stock_set, Main.StockItem.of_row, Db.ret, Db.raise.
  destruct (Db.stock_items st !! item_id) as [row|] eqn:Hrow; cbn; [|done].
  destruct (negb _); [done|].
  assert (Hq : 0 <= Db.s_quantity (foldl Db.assign row (Main.update_fields upd))).
  { apply foldl_assign_nonneg; [|done]. by eapply nonneg_lookup_stock. }
  destruct (Main.update_fields upd) as [|a fields]; [done|].
  rewrite Hrow. cbn [fst snd].
  destruct (0 <=? _); cbn [snd]; by apply nonneg_with_stock.
Qed.

Lemma add_quantity_to_stock_nonneg st item_id req :
  quantities_nonneg st -> Main.AddQuantityRequest.valid req = true ->
  quantities_nonneg (Main.add_quantity_to_stock item_id req st).2.
Proof.
  intros Hst Hvalid. unfold Main.AddQuantityRequest.valid in Hvalid.
  unfold Main.add_quantity_to_stock, Db.guard, Db.bind, Db.update_stock_add,
    Main.StockItem.of_row, Db.ret, Db.raise.
  destruct (Db.stock_items st !! item_id) as [row|] eqn:Hrow; cbn; [|done].
  assert (0 <= Db.s_quantity row) by by eapply nonneg_lookup_stock.
  destruct (0 <=? _); cbn; apply nonneg_with_stock; cbn; try done; lia.
Qed.

Lemma purchase_item_nonneg st purchase :
  quantities_nonneg st ->
  quantities_nonneg (Main.purchase_item purchase st).2.
Proof.
  intros Hst.
  destruct (Db.stock_items st !! Main.PurchaseRequest.item_id purchase)
    as [row|] eqn:Hrow.
  - destruct (Z.lt_ge_cases (Db.s_quantity row)
                (Main.PurchaseRequest.quantity purchase)) as [Hlt|Hge].
    + by rewrite (purchase_item_short st purchase row Hrow Hlt).
    + destruct (purchase_item_enough st purchase row Hrow) as (? & -> & _);
        [lia|].
      apply nonneg_with_stock; [done | cbn; lia].
  - by rewrite purchase_item_absent.
Qed.

Lemma serve_nonneg r st :
  quantities_nonneg st -> quantities_nonneg (Main.serve r st).2.
Proof.
  intros Hst.
  destruct r as [body|item_id body|item_id body|body];
    cbn [Main.serve]; unfold Main.respond.
  - destruct (Main.StockItemCreate.valid body) eqn:Hvalid; [|done].
    pose proof (add_stock_nonneg st body Hst Hvalid) as Hnn.
    destruct (Main.add_stock body st) as [[a|[code d|what]] st']; done.
  - destruct (Main.StockItemUpdate.valid body) eqn:Hvalid; [|done].
    pose proof (update_stock_nonneg st item_id body Hst Hvalid) as Hnn.
    destruct (Main.update_stock item_id body st) as [[a|[code d|what]] st'];
      done.
  - destruct (Main.AddQuantityRequest.valid body) eqn:Hvalid; [|done].
    pose proof (add_quantity_to_stock_nonneg st item_id body Hst Hvalid) as Hnn.
    destruct (Main.add_quantity_to_stock item_id body st)
      as [[a|[code d|what]] st']; done.
  - destruct (Main.PurchaseRequest.valid body); [|done].
    pose proof (purchase_item_nonneg st body Hst) as Hnn.
    destruct (Main.purchase_item body st) as [[a|[code d|what]] st']; done.
Qed.

Lemma checkout_loop_nonneg items details total st :
  quantities_nonneg st ->
  quantities_nonneg (Tool.checkout_loop items details total st).2.
Proof.
  revert details total st.
  induction items as [|line rest IH]; intros details total st Hst; [done|].
  cbn [Tool.checkout_loop].
  destruct (Tool.get_variant_id line) as [vid|].
  - unfold Db.bind at 1. unfold Db.select_variant_quantity.
    destruct (Db.item_variants st !! vid) as [v|] eqn:Hv; cbn; [|done].
    destruct (Z.ltb_spec (Db.v_quantity v) (Tool.CartItem.quantity line));
      [done|].
    unfold Db.bind, Db.update_variant_quantity. rewrite Hv.
    apply IH, nonneg_with_variant; [done | cbn; lia].
  - unfold Db.bind at 1. unfold Db.select_stock_quantity.
    destruct (Db.stock_items st !! Tool.CartItem.stock_item_id line)
      as [row|] eqn:Hrow; cbn; [|done].
    destruct (Z.ltb_spec (Db.s_quantity row) (Tool.CartItem.quantity line));
      [done|].
    unfold Db.bind, Db.update_stock_quantity. rewrite Hrow.
    apply IH, nonneg_with_stock; [done | cbn; lia].
Qed.

Lemma complete_purchase_nonneg cart st :
  quantities_nonneg st ->
  quantities_nonneg (Tool.complete_purchase cart st).2.
Proof.
  intros Hst. unfold Tool.complete_purchase, Db.transaction.
  destruct cart as [|line rest]; [done|].
  pose proof (checkout_loop_nonneg (line :: rest) [] 0 st Hst) as Hnn.
  destruct (Tool.checkout_loop (line :: rest) [] 0 st) as [[[m|d t]|e] st'];
    done.
Qed.

Lemma step_nonneg op sys :
  quantities_nonneg (store sys) -> quantities_nonneg (store (step op sys)).
Proof.
  intros Hst. destruct op as [r|]; cbn [step store].
  - by apply serve_nonneg.
  - pose proof (complete_purchase_nonneg (cart sys) (store sys) Hst) as Hnn.
    by destruct (Tool.complete_purchase (cart sys) (store sys)) as [[m c] st'].
Qed.

(** C4. From a store in which no stock or variant quantity is negative,
    every operation (create, update, add-quantity and purchase requests, and
    the agent's checkout) leads to a store with the same property, and so
    does every sequence of them. *)
Theorem quantities_never_negative (ops : list Operation) (sys : System) :
  quantities_nonneg (store sys) ->
  quantities_nonneg (store (foldl (fun s op => step op s) sys ops)).
Proof.
  revert sys. induction ops as [|op ops IH]; intros sys Hst; [done|].
  cbn [foldl]. by apply IH, step_nonneg.
Qed.

(** A run of the example session: a purchase over HTTP, then a checkout. *)
Lemma quantities_never_negative_witness :
  quantities_nonneg (store Example.session) /\
  quantities_nonneg
    (store (foldl (fun s op => step op s) Example.session Example.run)).
Proof.
  assert (Hplain : quantities_nonneg (store Example.session)).
  { split; cbn;
      repeat (apply map_Forall_insert_2; [cbn; lia|]); apply map_Forall_empty. }
  split; [exact Hplain|].
  exact (quantities_never_negative Example.run Example.session Hplain).
Defined.

(** ** Checkout *)

Lemma transaction_rollback {A} (body : Db.DB A) st e st' :
  Db.transaction body st = (Db.Raise e, st') -> st' = st.
Proof.
  unfold Db.transaction.
  destruct (body st) as [[a|e'] st'']; intros [= <- <-]; done.
Qed.


Lemma backing_variant line vid :
  Tool.get_variant_id line = Some vid -> backing line = Variant_row vid.
Proof.
  unfold Tool.get_variant_id, backing.
  destruct (Tool.CartItem.variant_id line) as [v|]; [|done].
  destruct (v =? 0); [done|]. by intros [= ->].
Qed.

Lemma backing_stock line :
  Tool.get_variant_id line = None ->
  backing line = Stock_row (Tool.CartItem.stock_item_id line).
Proof.
  unfold Tool.get_variant_id, backing.
  destruct (Tool.CartItem.variant_id line) as [v|]; [|done].
  by destruct (v =? 0).
Qed.


(** One turn of the loop, read through the line's backing row. *)
Lemma checkout_loop_cons line rest details total st :
  Tool.checkout_loop (line :: rest) details total st =
    match live st (backing line) with
    | None => (Db.Return (Tool.Returned (unavailable line)), st)
    | Some c =>
        if c <? Tool.CartItem.quantity line
        then (Db.Return (Tool.Returned (unavailable line)), st)
        else
          Tool.checkout_loop rest
            (details ++ [Tool.purchase_detail line])
            (total + Tool.CartItem.total_price line)
            (set_quantity st (backing line) (c - Tool.CartItem.quantity line))
    end.
Proof.
  cbn [Tool.checkout_loop]. unfold unavailable.
  destruct (Tool.get_variant_id line) as [vid|] eqn:Hid.
  - rewrite (backing_variant line vid Hid). cbn [live set_quantity].
    unfold Db.bind at 1. unfold Db.select_variant_quantity, Db.ret.
    destruct (Db.item_variants st !! vid) as [v|] eqn:Hv; cbn; [|done].
    destruct (Db.v_quantity v <? Tool.CartItem.quantity line); [done|].
    unfold Db.bind. by destruct (Db.update_variant_quantity _ vid st) as [[[]|e] st'] eqn:Hup;
      unfold Db.update_variant_quantity in Hup; rewrite Hv in Hup;
      simplify_eq.
  - rewrite (backing_stock line Hid). cbn [live set_quantity].
    unfold Db.bind at 1. unfold Db.select_stock_quantity, Db.ret.
    destruct (Db.stock_items st !! Tool.CartItem.stock_item_id line)
      as [r|] eqn:Hr; cbn; [|done].
    destruct (Db.s_quantity r <? Tool.CartItem.quantity line); [done|].
    unfold Db.bind. by destruct (Db.update_stock_quantity _ _ st) as [[o|e] st'] eqn:Hup;
      unfold Db.update_stock_quantity in Hup; rewrite Hr in Hup;
      simplify_eq.
Qed.











(** C1. In the example session (three bottles of cola put in the cart twice
    while five are in stock) checkout refuses the second line with the
    "no longer available" message, and the decrement made for the first
    line is nevertheless in the store afterwards: Coke went from 5 to 2. *)
Theorem complete_purchase_partial_write :
  let result := Tool.complete_purchase Example.two_lines Example.plain in
  result.1.1 =
    "Sorry, Coke is no longer available in the requested quantity. Please check stock and try again."
  /\ result.1.2 = Example.two_lines
  /\ live Example.plain (Stock_row 1) = Some 5
  /\ live result.2 (Stock_row 1) = Some 2.
Proof. vm_compute. repeat split; reflexivity. Qed.

(** ** Variants of an item *)

Lemma elem_of_insert_by_variant x r l :
  x ∈ Tool.insert_by_variant r l -> x = r \/ x ∈ l.
Proof.
  induction l as [|y l IH]; cbn.
  - intros Hx. apply list_elem_of_singleton in Hx. by left.
  - destruct (String.leb _ _).
    + intros [->|Hx]%elem_of_cons; [right; left|].
      destruct (IH Hx) as [->|Hin]; [by left | right; by right].
    + intros [->|Hx]%elem_of_cons; [by left | by right].
Qed.

Lemma elem_of_order_by_variant x l : x ∈ Tool.order_by_variant l -> x ∈ l.
Proof.
  unfold Tool.order_by_variant.
  assert (Hgen : forall acc,
             x ∈ foldl (fun acc r => Tool.insert_by_variant r acc) acc l ->
             x ∈ acc \/ x ∈ l).
  { induction l as [|r l IH]; intros acc; cbn [foldl]; [by left|].
    intros Hx. destruct (IH _ Hx) as [Hacc|Hl]; [|right; by right].
    destruct (elem_of_insert_by_variant _ _ _ Hacc) as [->|Hin];
      [right; left | by left]. }
  intros Hx. destruct (Hgen [] Hx) as [Hnil|Hl]; [|done].
  by apply elem_of_nil in Hnil.
Qed.

(** Whatever the catalog, a row that [get_item_variants] synthesizes for an
    item without variant rows is labeled "Default", carries the item's own
    quantity and unit, and carries price 0: the item's price is not read. *)
Lemma variants_rows_default st name row :
  row ∈ Tool.variants_rows st name ->
  Tool.Row.variant_id row = None ->
  exists s,
    Db.stock_items st !! Tool.Row.stock_item_id row = Some s
    /\ Tool.Row.variant row = "Default"
    /\ Tool.Row.quantity row = Db.s_quantity s
    /\ Tool.Row.unit row = Db.s_unit s
    /\ Tool.Row.price row = 0.
Proof.
  unfold Tool.variants_rows. intros Hrow%elem_of_order_by_variant Hid.
  apply list_elem_of_fmap in Hrow as ([[sid s] v] & -> & Hj).
  apply list_elem_of_filter in Hj as [_ Hj].
  destruct v as [v|]; [done|]. exists s. cbn.
  split; [|done].
  unfold Tool.left_join in Hj. apply list_elem_of_In, in_flat_map in Hj.
  destruct Hj as ([sid' s'] & Hin & Hj).
  apply list_elem_of_In, elem_of_map_to_list in Hin.
  destruct (filter _ _) as [|v0 vs].
  - destruct Hj as [Hj|[]]. by simplify_eq.
  - apply in_map_iff in Hj as (v1 & Heq & _). by simplify_eq.
Qed.

Lemma left_join_elem st j :
  j ∈ Tool.left_join st -> Db.stock_items st !! j.1.1 = Some j.1.2.
Proof.
  unfold Tool.left_join. intros Hj.
  apply list_elem_of_In, in_flat_map in Hj as ([sid s] & Hin & Hj).
  apply list_elem_of_In, elem_of_map_to_list in Hin.
  destruct (filter _ _) as [|v0 vs].
  - destruct Hj as [<-|[]]. done.
  - apply in_map_iff in Hj as (v1 & <- & _). done.
Qed.

Lemma filter_flat_map_nil {A B} (f : A -> list B) (P : B -> Prop)
    `{!forall y, Decision (P y)} (l : list A) :
  (forall a, a ∈ l -> filter P (f a) = []) -> filter P (flat_map f l) = [].
Proof.
  induction l as [|a l IH]; intros Hall; [done|].
  cbn [flat_map]. rewrite filter_app, (Hall a) by left.
  apply IH. intros a' Ha'. apply Hall. by right.
Qed.

Lemma filter_flat_map_unique {A B} (f : A -> list B) (P : B -> Prop)
    `{!forall y, Decision (P y)} (l : list A) (x : A) (ys : list B) :
  NoDup l -> x ∈ l -> filter P (f x) = ys ->
  (forall a, a ∈ l -> a <> x -> filter P (f a) = []) ->
  filter P (flat_map f l) = ys.
Proof.
  induction l as [|a l IH]; intros Hnd Hx Hfx Hothers.
  { by apply elem_of_nil in Hx. }
  apply NoDup_cons in Hnd as [Ha Hnd]. cbn [flat_map]. rewrite filter_app.
  apply elem_of_cons in Hx as [->|Hx].
  - rewrite Hfx, filter_flat_map_nil; [by rewrite app_nil_r|].
    intros a' Ha'. apply Hothers; [by right|]. by intros ->.
  - rewrite (Hothers a) by (by left || by intros ->).
    apply IH; [done..|]. intros a' Ha'. apply Hothers. by right.
Qed.

(** X24. A name that, once normalized, matches no item of the catalog up to
    case and surrounding blanks is reported as not found, under the name the
    caller gave. *)
Lemma get_item_variants_not_found st item_name :
  (forall i s, Db.stock_items st !! i = Some s ->
     Tool.same_name (Db.s_item_name s) (_map_item_name item_name) = false) ->
  Tool.get_item_variants st item_name = Tool.not_in_inventory item_name.
Proof.
  intros Hnone. unfold Tool.get_item_variants, Tool.variants_rows.
  assert (Hnil : filter
            (fun j => Tool.where_item (_map_item_name item_name) j)
            (Tool.left_join st) = []).
  { apply head_None, head_filter_miss. intros [[sid s] v] Hj.
    apply left_join_elem in Hj. unfold Tool.where_item.
    cbn [fst snd] in *. rewrite (Hnone sid s Hj). intros Hf; exact Hf. }
  by rewrite Hnil.
Qed.

(** X25. For an item without variant rows that is the only match of the
    name, the query returns exactly one row: the "Default" row with the
    item's quantity and unit and with price 0. *)
Lemma variants_rows_single st name sid s :
  Db.stock_items st !! sid = Some s ->
  (forall vid v, Db.item_variants st !! vid = Some v ->
                 Db.v_stock_item_id v <> sid) ->
  Tool.same_name (Db.s_item_name s) name = true ->
  (forall i r, Db.stock_items st !! i = Some r ->
               Tool.same_name (Db.s_item_name r) name = true -> i = sid) ->
  Tool.variants_rows st name =
    [ {| Tool.Row.stock_item_id := sid;
         Tool.Row.item_name := Db.s_item_name s;
         Tool.Row.variant := "Default";
         Tool.Row.quantity := Db.s_quantity s;
         Tool.Row.unit := Db.s_unit s;
         Tool.Row.price := 0;
         Tool.Row.variant_id := None |} ].
Proof.
  intros Hs Hnovar Hname Huniq. unfold Tool.variants_rows, Tool.left_join.
  assert (Hvs : filter (fun v : Z * Db.VariantRow => Db.v_stock_item_id v.2 = sid)
                  (map_to_list (Db.item_variants st)) = []).
  { apply head_None, head_filter_miss. intros [vid v] Hv.
    apply elem_of_map_to_list in Hv. by apply (Hnovar vid v). }
  erewrite (filter_flat_map_unique _ _ _ (sid, s) [((sid, s), None)]).
  - reflexivity.
  - apply NoDup_map_to_list.
  - by apply elem_of_map_to_list.
  - cbn [fst]. rewrite Hvs. cbn. unfold Tool.where_item. cbn.
    rewrite decide_True; [done|]. by rewrite Hname.
  - intros [i r] Hin Hne. apply elem_of_map_to_list in Hin.
    apply head_None, head_filter_miss. intros [[i' r'] v].
    unfold Tool.where_item. cbn [fst snd].
    destruct (filter (fun v : Z * Db.VariantRow => Db.v_stock_item_id v.2 = i)
                (map_to_list (Db.item_variants st))) as [|v0 vs0];
      intros Hj.
    + apply list_elem_of_singleton in Hj. simplify_eq.
      intros Hw%Is_true_true. apply Hne.
      pose proof (Huniq i r Hin Hw) as ->. by simplify_eq.
    + apply list_elem_of_fmap in Hj as (v1 & Heq & _). simplify_eq.
      intros Hw%Is_true_true. apply Hne.
      pose proof (Huniq i r Hin Hw) as ->. by simplify_eq.
Qed.

(** C5. In the example catalog without variant rows, Lays has one row
    labeled "Default" with the item's quantity and unit, but the price shown
    is 0.00 although the item's own price is 2.50; a name that matches no
    item is reported as not found. *)
Theorem get_item_variants_default_price :
  Db.stock_items Example.plain !! 2 = Some Example.lays
  /\ Db.s_price Example.lays = Some 250
  /\ Tool.variants_rows Example.plain (_map_item_name "chips") =
       [ {| Tool.Row.stock_item_id := 2; Tool.Row.item_name := "Lays";
            Tool.Row.variant := "Default"; Tool.Row.quantity := 1;
            Tool.Row.unit := "packs"; Tool.Row.price := 0;
            Tool.Row.variant_id := None |} ]
  /\ Tool.get_item_variants Example.plain "chips" =
       "Available Lays variants: Default: 1 packs at $0.00 each"
  /\ Tool.variants_query Example.plain (_map_item_name "chips") =
       [("Default", Some 250)]
  /\ Tool.get_item_variants Example.plain "tea" =
       "Sorry, I couldn't find 'tea' in our inventory.".
Proof. vm_compute. repeat split; reflexivity. Qed.

(** ** Adding to the cart *)

Lemma add_to_cart_resolved st cart item_name quantity variant row :
  resolve st item_name variant = Some row ->
  Tool.add_to_cart st cart item_name quantity variant =
    if Tool.Row.quantity row <? quantity
    then (only_have row, cart)
    else (added row quantity
            (Tool.cart_total_of (cart ++ [line_of row quantity])),
          cart ++ [line_of row quantity]).
Proof.
  unfold resolve, Tool.add_to_cart. intros ->.
  by destruct (Tool.Row.quantity row <? quantity).
Qed.

Lemma add_to_cart_unresolved st item_name quantity variant :
  resolve st item_name variant = None ->
  exists refusal, forall cart,
    Tool.add_to_cart st cart item_name quantity variant = (refusal, cart).
Proof.
  unfold resolve, Tool.add_to_cart. intros ->.
  destruct (Tool.variants_query st (_map_item_name item_name)) as [|v vs];
    [by eexists|].
  destruct (Tool.variant_list (v :: vs)); by eexists.
Qed.

(** C9. With the store and the arguments fixed, [add_to_cart] reaches the
    same outcome from any two carts: when the arguments resolve to a row
    holding at least the requested quantity, the same line is appended to
    either cart, and a further request of at most the row's quantity is
    appended as well, whatever the lines already there ask for; otherwise
    either run returns the same refusal and leaves its cart alone. *)
Theorem add_to_cart_ignores_cart
    (st : Db.Store) (item_name variant : string) (quantity : Z)
    (cart1 cart2 : list Tool.CartItem.t) :
  match resolve st item_name variant with
  | Some row =>
      if quantity <=? Tool.Row.quantity row then
        (Tool.add_to_cart st cart1 item_name quantity variant).2 =
          cart1 ++ [line_of row quantity]
        /\ (Tool.add_to_cart st cart2 item_name quantity variant).2 =
             cart2 ++ [line_of row quantity]
        /\ forall again,
             again <= Tool.Row.quantity row ->
             (Tool.add_to_cart st (cart1 ++ [line_of row quantity])
                item_name again variant).2 =
               cart1 ++ [line_of row quantity; line_of row again]
      else
        Tool.add_to_cart st cart1 item_name quantity variant =
          (only_have row, cart1)
        /\ Tool.add_to_cart st cart2 item_name quantity variant =
             (only_have row, cart2)
  | None =>
      exists refusal,
        Tool.add_to_cart st cart1 item_name quantity variant =
          (refusal, cart1)
        /\ Tool.add_to_cart st cart2 item_name quantity variant =
             (refusal, cart2)
  end.
Proof.
  destruct (resolve st item_name variant) as [row|] eqn:Hrow.
  - destruct (Z.leb_spec quantity (Tool.Row.quantity row)) as [Hle|Hgt].
    + rewrite !(add_to_cart_resolved st _ _ quantity _ row Hrow).
      destruct (Z.ltb_spec (Tool.Row.quantity row) quantity); [lia|].
      do 2 (split; [done|]).
      intros again Hagain.
      rewrite (add_to_cart_resolved st _ _ again _ row Hrow).
      destruct (Z.ltb_spec (Tool.Row.quantity row) again); [lia|].
      cbn [snd]. by rewrite <- app_assoc.
    + rewrite !(add_to_cart_resolved st _ _ quantity _ row Hrow).
      by destruct (Z.ltb_spec (Tool.Row.quantity row) quantity); [|lia].
  - destruct (add_to_cart_unresolved st item_name quantity variant Hrow)
      as [refusal Hrefusal].
    exists refusal. by rewrite !Hrefusal.
Qed.

(** Two requests for three bottles of cola both enter the cart although the
    store holds five. *)
Lemma add_to_cart_ignores_cart_witness :
  3 <= Tool.Row.quantity Example.coke_row /\
  Tool.Row.quantity Example.coke_row < 3 + 3 /\
  (Tool.add_to_cart Example.plain [] "cola" 3 "").2 =
    [line_of Example.coke_row 3] /\
  (Tool.add_to_cart Example.plain [line_of Example.coke_row 3] "cola" 3 "").2 =
    [line_of Example.coke_row 3; line_of Example.coke_row 3].
Proof.
  assert (Hrow : resolve Example.plain "cola" "" = Some Example.coke_row)
    by (vm_compute; reflexivity).
  assert (Hle : 3 <= Tool.Row.quantity Example.coke_row) by (cbn; lia).
  pose proof (add_to_cart_ignores_cart Example.plain "cola" "" 3 [] []) as H.
  rewrite Hrow in H. cbn [Z.leb Tool.Row.quantity Example.coke_row] in H.
  change (3 <=? 5) with true in H. cbv iota in H.
  destruct H as (Hfirst & _ & Hsecond).
  split; [exact Hle|]. split; [cbn; lia|].
  split; [exact Hfirst|]. exact (Hsecond 3 Hle).
Defined.



(** * Further properties *)

(** ** Ordering of query results *)

Section Order_by.
Context {A : Type} (le : A -> A -> bool).

Lemma insert_by_perm r l : Db.insert_by le r l ≡ₚ r :: l.
Proof.
  induction l as [|x l IH]; cbn; [done|].
  destruct (le x r); [|done]. rewrite IH. apply Permutation_swap.
Qed.

Lemma order_by_perm l : Db.order_by le l ≡ₚ l.
Proof.
  unfold Db.order_by.
  assert (Hgen : forall acc,
             foldl (fun acc r => Db.insert_by le r acc) acc l ≡ₚ l ++ acc).
  { induction l as [|r l IH]; intros acc; cbn [foldl]; [done|].
    rewrite IH, insert_by_perm. cbn. by rewrite Permutation_middle. }
  by rewrite Hgen, app_nil_r.
Qed.

Lemma elem_of_order_by x l : x ∈ Db.order_by le l <-> x ∈ l.
Proof. by rewrite order_by_perm. Qed.

Context (le_total : forall a b, le a b = true \/ le b a = true).
Context (le_trans : forall a b c, le a b = true -> le b c = true -> le a c = true).

Lemma insert_by_sorted r l :
  StronglySorted (fun a b => le a b = true) l ->
  StronglySorted (fun a b => le a b = true) (Db.insert_by le r l).
Proof.
  induction 1 as [|x l Hl IH Hx]; cbn; [by repeat constructor|].
  destruct (le x r) eqn:Hxr.
  - constructor; [done|].
    rewrite insert_by_perm. by constructor.
  - assert (Hrx : le r x = true) by (destruct (le_total r x); congruence).
    constructor; [by constructor|].
    constructor; [done|].
    eapply Forall_impl; [exact Hx|]. intros y Hy. by eapply le_trans.
Qed.

Lemma order_by_sorted l :
  StronglySorted (fun a b => le a b = true) (Db.order_by le l).
Proof.
  unfold Db.order_by.
  assert (Hgen : forall acc,
             StronglySorted (fun a b => le a b = true) acc ->
             StronglySorted (fun a b => le a b = true)
               (foldl (fun acc r => Db.insert_by le r acc) acc l)).
  { induction l as [|r l IH]; intros acc Hacc; cbn [foldl]; [done|].
    by apply IH, insert_by_sorted. }
  apply Hgen. constructor.
Qed.
End Order_by.

(** ** Reading the catalog over HTTP *)

Lemma stock_items_of_state rows st : (Main.stock_items_of rows st).2 = st.
Proof.
  induction rows as [|row rows IH]; [done|].
  cbn [Main.stock_items_of]. unfold Db.bind, Main.StockItem.of_row.
  destruct (0 <=? Db.s_quantity row.2); cbn; [|done].
  destruct (Main.stock_items_of rows st) as [[items|e] st'] eqn:Hrows;
    cbn in *; by subst.
Qed.

Lemma stock_items_of_nonneg rows st :
  Forall (fun row : Z * Db.StockRow => 0 <= Db.s_quantity row.2) rows ->
  Main.stock_items_of rows st = (Db.Return (map shown rows), st).
Proof.
  induction 1 as [|row rows Hrow _ IH]; [done|].
  cbn [Main.stock_items_of]. unfold Db.bind, Main.StockItem.of_row.
  destruct (Z.leb_spec 0 (Db.s_quantity row.2)); [|lia].
  cbn. by rewrite IH.
Qed.

Lemma nonneg_rows st rows :
  quantities_nonneg st ->
  (forall row, row ∈ rows -> Db.stock_items st !! row.1 = Some row.2) ->
  Forall (fun row : Z * Db.StockRow => 0 <= Db.s_quantity row.2) rows.
Proof.
  intros Hst Hrows. apply Forall_forall. intros row Hrow.
  by eapply nonneg_lookup_stock, Hrows.
Qed.

Lemma guard_all_state {A} failure (body : Db.DB A) st :
  (Db.guard_all failure body st).2 = (body st).2.
Proof. unfold Db.guard_all. by destruct (body st) as [[a|e] st']. Qed.

Lemma guard_state {A} failure (body : Db.DB A) st :
  (Db.guard failure body st).2 = (body st).2.
Proof. unfold Db.guard. by destruct (body st) as [[a|[c d|w]] st']. Qed.

(** X1. The four reading handlers never change the store, whether they
    answer or fail. *)
Theorem reading_handlers_leave_store
    (st : Db.Store) (item_id threshold : Z) (item_name : string) :
  (Main.get_stock_by_id item_id st).2 = st
  /\ (Main.get_all_stocks st).2 = st
  /\ (Main.search_stocks_by_name item_name st).2 = st
  /\ (Main.get_low_stock_items threshold st).2 = st.
Proof.
  split.
  { unfold Main.get_stock_by_id. rewrite guard_state.
    unfold Db.bind, Db.select_stock, Main.StockItem.of_row, Db.ret, Db.raise.
    destruct (Db.stock_items st !! item_id); cbn; [|done].
    by destruct (0 <=? _). }
  unfold Main.get_all_stocks, Main.search_stocks_by_name,
    Main.get_low_stock_items.
  rewrite !guard_all_state.
  unfold Db.bind, Db.select_all_stocks, Db.select_stocks_like,
    Db.select_low_stock.
  by rewrite !stock_items_of_state.
Qed.

(** X2. On a catalog without negative quantities, listing all stock
    answers with every stored item exactly once, in increasing order of
    id. *)
Theorem get_all_stocks_complete_sorted (st : Db.Store) :
  quantities_nonneg st ->
  exists items,
    Main.get_all_stocks st = (Db.Return items, st)
    /\ (forall it, it ∈ items <->
          exists row, Db.stock_items st !! Main.StockItem.id it = Some row
                      /\ it = shown (Main.StockItem.id it, row))
    /\ StronglySorted Z.lt (map Main.StockItem.id items).
Proof.
  intros Hst. unfold Main.get_all_stocks, Db.guard_all, Db.bind.
  unfold Db.select_all_stocks.
  set (le := fun a b : Z * Db.StockRow => a.1 <=? b.1).
  set (rows := Db.order_by le (map_to_list (Db.stock_items st))).
  assert (Hin : forall row, row ∈ rows <-> Db.stock_items st !! row.1 = Some row.2).
  { intros [i r]. unfold rows. rewrite elem_of_order_by.
    apply elem_of_map_to_list. }
  rewrite (stock_items_of_nonneg rows st)
    by (eapply nonneg_rows; [done|]; intros row; apply Hin).
  exists (map shown rows). split; [done|]. split.
  - intros it. rewrite list_elem_of_fmap. split.
    + intros ([i r] & -> & Hrow). apply Hin in Hrow. by exists r.
    + intros (r & Hr & Hit). exists (Main.StockItem.id it, r).
      split; [done|]. by apply Hin.
  - rewrite map_map. cbn.
    assert (Hsorted : StronglySorted (fun a b => le a b = true) rows).
    { apply order_by_sorted; unfold le; intros; lia. }
    assert (Hnodup : NoDup (map fst rows)).
    { assert (Hperm : map fst rows ≡ₚ (map_to_list (Db.stock_items st)).*1)
        by apply fmap_Permutation, order_by_perm.
      rewrite Hperm. apply NoDup_fst_map_to_list. }
    clearbody rows. clear Hin.
    induction Hsorted as [|row rows Hsorted IH Hall]; cbn; [constructor|].
    apply NoDup_cons in Hnodup as [Hnotin Hnodup].
    constructor; [by apply IH|].
    apply List.Forall_forall. intros i Hi.
    rewrite <- list_elem_of_In in Hi.
    apply list_elem_of_fmap in Hi as (row' & -> & Hrow').
    rewrite List.Forall_forall in Hall.
    pose proof (Hall row' (proj1 (list_elem_of_In _ _) Hrow')) as Hle.
    unfold le in Hle. apply Z.leb_le in Hle.
    assert (row.1 <> row'.1); [|lia].
    intros Heq. apply Hnotin. rewrite Heq. by apply list_elem_of_fmap_2.
Qed.

Lemma get_all_stocks_complete_sorted_witness :
  quantities_nonneg Example.catalog /\
  exists items,
    Main.get_all_stocks Example.catalog = (Db.Return items, Example.catalog)
    /\ (forall it, it ∈ items <->
          exists row,
            Db.stock_items Example.catalog !! Main.StockItem.id it = Some row
            /\ it = shown (Main.StockItem.id it, row))
    /\ StronglySorted Z.lt (map Main.StockItem.id items).
Proof.
  split; [exact example_catalog_nonneg|].
  exact (get_all_stocks_complete_sorted Example.catalog example_catalog_nonneg).
Defined.

(** X3. On a catalog without negative quantities, the low-stock listing
    answers with exactly the items whose quantity is strictly below the
    threshold, each once, in ascending order of quantity; with a threshold
    of zero or less it is empty. *)
Theorem get_low_stock_items_exact (st : Db.Store) (threshold : Z) :
  quantities_nonneg st ->
  exists items,
    Main.get_low_stock_items threshold st = (Db.Return items, st)
    /\ (forall it, it ∈ items <->
          exists row, Db.stock_items st !! Main.StockItem.id it = Some row
                      /\ it = shown (Main.StockItem.id it, row)
                      /\ Db.s_quantity row < threshold)
    /\ StronglySorted Z.le (map Main.StockItem.quantity items)
    /\ NoDup (map Main.StockItem.id items)
    /\ (threshold <= 0 -> items = []).
Proof.
  intros Hst. unfold Main.get_low_stock_items, Db.guard_all, Db.bind.
  unfold Db.select_low_stock.
  set (le := fun a b : Z * Db.StockRow => Db.s_quantity a.2 <=? Db.s_quantity b.2).
  set (found := filter (fun r : Z * Db.StockRow => Db.s_quantity r.2 < threshold)
                  (map_to_list (Db.stock_items st))).
  set (rows := Db.order_by le found).
  assert (Hin : forall row, row ∈ rows <->
            Db.stock_items st !! row.1 = Some row.2
            /\ Db.s_quantity row.2 < threshold).
  { intros [i r]. unfold rows, found.
    rewrite elem_of_order_by, list_elem_of_filter, elem_of_map_to_list.
    cbn. tauto. }
  rewrite (stock_items_of_nonneg rows st)
    by (eapply nonneg_rows; [done|]; intros row Hrow; by apply Hin).
  exists (map shown rows). split; [done|]. split; [|split; [|split]].
  - intros it. rewrite list_elem_of_fmap. split.
    + intros ([i r] & -> & Hrow). apply Hin in Hrow as [Hr Hlt]. by exists r.
    + intros (r & Hr & Hit & Hlt). exists (Main.StockItem.id it, r).
      split; [done|]. by apply Hin.
  - rewrite map_map. cbn.
    assert (Hsorted : StronglySorted (fun a b => le a b = true) rows).
    { apply order_by_sorted; unfold le; intros; lia. }
    clearbody rows. clear Hin.
    induction Hsorted as [|row rows Hsorted IH Hall]; cbn; constructor; [done|].
    apply List.Forall_forall. intros q Hq. rewrite <- list_elem_of_In in Hq.
    apply list_elem_of_fmap in Hq as (row' & -> & Hrow').
    rewrite List.Forall_forall in Hall.
    pose proof (Hall row' (proj1 (list_elem_of_In _ _) Hrow')) as Hle.
    unfold le in Hle. lia.
  - rewrite map_map. cbn.
    assert (Hperm : map fst rows ≡ₚ found.*1)
      by apply fmap_Permutation, order_by_perm.
    change (NoDup (map fst rows)). rewrite Hperm.
    unfold found. apply NoDup_fmap_fst.
    + intros i r1 r2 [_ H1%elem_of_map_to_list]%list_elem_of_filter
        [_ H2%elem_of_map_to_list]%list_elem_of_filter. congruence.
    + apply NoDup_filter, NoDup_map_to_list.
  - intros Hle. destruct rows as [|row rows'] eqn:Hrows; [done|].
    assert (Hrow : row ∈ row :: rows') by left.
    apply Hin in Hrow as [Hr Hlt].
    pose proof (nonneg_lookup_stock st _ _ Hst Hr). lia.
Qed.

Lemma get_low_stock_items_exact_witness :
  quantities_nonneg Example.catalog /\
  exists items,
    Main.get_low_stock_items 5 Example.catalog =
      (Db.Return items, Example.catalog)
    /\ (forall it, it ∈ items <->
          exists row,
            Db.stock_items Example.catalog !! Main.StockItem.id it = Some row
            /\ it = shown (Main.StockItem.id it, row)
            /\ Db.s_quantity row < 5)
    /\ StronglySorted Z.le (map Main.StockItem.quantity items)
    /\ NoDup (map Main.StockItem.id items)
    /\ (5 <= 0 -> items = []).
Proof.
  split; [exact example_catalog_nonneg|].
  exact (get_low_stock_items_exact Example.catalog 5 example_catalog_nonneg).
Defined.

(** ** Searching by name *)

Lemma like_percent p s :
  Str.like ("%"%char :: p) s =
    Str.like p s ||
    match s with
    | [] => false
    | _ :: s' => Str.like ("%"%char :: p) s'
    end.
Proof. by destruct s. Qed.

Lemma like_plain c p s :
  like_special c = false ->
  Str.like (c :: p) s =
    match s with
    | [] => false
    | d :: s' => Ascii.eqb c d && Str.like p s'
    end.
Proof.
  unfold like_special. intros Hc. cbn [Str.like].
  destruct (Ascii.eqb c "%"); [done|].
  destruct (Ascii.eqb c "_"); [done|].
  by destruct (Ascii.eqb c "\").
Qed.

Lemma like_percent_iff p s :
  Str.like ("%"%char :: p) s = true <->
  exists pre post, s = pre ++ post /\ Str.like p post = true.
Proof.
  induction s as [|d s IH]; rewrite like_percent.
  - rewrite orb_false_r. split.
    + intros Hp. by exists [], [].
    + intros (pre & post & Heq & Hp).
      symmetry in Heq. apply app_eq_nil in Heq as [-> ->]. done.
  - rewrite orb_true_iff, IH. split.
    + intros [Hp|(pre & post & -> & Hp)].
      * by exists [], (d :: s).
      * by exists (d :: pre), post.
    + intros (pre & post & Heq & Hp). destruct pre as [|d' pre].
      * left. cbn in Heq. by subst.
      * right. cbn in Heq. injection Heq as -> ->. by exists pre, post.
Qed.

Lemma like_plain_prefix p q s :
  forallb (fun c => negb (like_special c)) p = true ->
  Str.like (p ++ q) s = true <->
  exists post, s = p ++ post /\ Str.like q post = true.
Proof.
  revert s. induction p as [|c p IH]; intros s Hplain; cbn [app].
  - split; [by exists s | by intros (post & -> & Hq)].
  - cbn in Hplain. apply andb_true_iff in Hplain as [Hc Hplain].
    apply negb_true_iff in Hc. rewrite like_plain by done.
    destruct s as [|d s].
    + split; [done | by intros (post & [=] & _)].
    + rewrite andb_true_iff, (IH s Hplain), Ascii.eqb_eq. split.
      * intros [-> (post & -> & Hq)]. by exists post.
      * intros (post & [= -> ->] & Hq). split; [done|]. by exists post.
Qed.

Lemma like_any s : Str.like ["%"%char] s = true.
Proof. apply like_percent_iff. exists s, []. by rewrite app_nil_r. Qed.

(** A pattern [%text%] without special characters in [text] matches what
    contains [text]. *)
Lemma like_infix p s :
  forallb (fun c => negb (like_special c)) p = true ->
  Str.like ("%"%char :: p ++ ["%"%char]) s = true <->
  exists pre post, s = pre ++ p ++ post.
Proof.
  intros Hplain. rewrite like_percent_iff. split.
  - intros (pre & rest & -> & Hrest).
    apply like_plain_prefix in Hrest as (post & -> & _); [|done].
    by exists pre, post.
  - intros (pre & post & ->). exists pre, (p ++ post). split; [done|].
    apply like_plain_prefix; [done|]. exists post. split; [done|].
    apply like_any.
Qed.

Lemma list_ascii_of_string_app a b :
  list_ascii_of_string (a +:+ b) =
  list_ascii_of_string a ++ list_ascii_of_string b.
Proof. induction a as [|c a IH]; simpl; [done|]. by f_equal. Qed.

Lemma string_of_list_ascii_app a b :
  string_of_list_ascii (a ++ b) =
  string_of_list_ascii a +:+ string_of_list_ascii b.
Proof. induction a as [|c a IH]; simpl; [done|]. rewrite IH. reflexivity. Qed.

Lemma list_ascii_of_lower s :
  list_ascii_of_string (Str.lower s) =
  map Str.lower_char (list_ascii_of_string s).
Proof. unfold Str.lower. apply list_ascii_of_string_of_list_ascii. Qed.

Lemma like_special_lower_char c :
  like_special (Str.lower_char c) = like_special c.
Proof. by destruct c as [[] [] [] [] [] [] [] []]. Qed.

Lemma plain_text_lower text :
  plain_text text = true ->
  forallb (fun c => negb (like_special c))
    (list_ascii_of_string (Str.lower text)) = true.
Proof.
  unfold plain_text. rewrite list_ascii_of_lower.
  induction (list_ascii_of_string text) as [|c l IH]; cbn; [done|].
  rewrite like_special_lower_char.
  intros [-> Hl]%andb_true_iff. by rewrite IH.
Qed.

(** The pattern the handler sends, matched against a lower-cased name. *)
Lemma search_pattern_infix name text :
  plain_text text = true ->
  Str.sql_like (Str.lower name) (Str.lower ("%" +:+ text +:+ "%")) = true <->
  exists pre post, Str.lower name = pre +:+ Str.lower text +:+ post.
Proof.
  intros Hplain. unfold Str.sql_like.
  assert (Hpat : list_ascii_of_string (Str.lower ("%" +:+ text +:+ "%")) =
                 "%"%char :: list_ascii_of_string (Str.lower text) ++ ["%"%char]).
  { rewrite !list_ascii_of_lower.
    change ("%" +:+ text +:+ "%") with (String "%"%char (text +:+ "%")).
    cbn [list_ascii_of_string map].
    by rewrite list_ascii_of_string_app, map_app. }
  rewrite Hpat, like_infix by by apply plain_text_lower.
  split.
  - intros (pre & post & Heq).
    exists (string_of_list_ascii pre), (string_of_list_ascii post).
    rewrite <- (string_of_list_ascii_of_string (Str.lower name)), Heq.
    by rewrite !string_of_list_ascii_app, string_of_list_ascii_of_string.
  - intros (pre & post & ->).
    exists (list_ascii_of_string pre), (list_ascii_of_string post).
    by rewrite !list_ascii_of_string_app.
Qed.

(** X4. On a catalog without negative quantities, a search text that
    holds no [%], [_] or backslash finds exactly the items whose name
    contains the text, letter case ignored, each once. *)
Theorem search_stocks_by_name_substring (st : Db.Store) (text : string) :
  quantities_nonneg st ->
  plain_text text = true ->
  exists items,
    Main.search_stocks_by_name text st = (Db.Return items, st)
    /\ (forall it, it ∈ items <->
          exists row pre post,
            Db.stock_items st !! Main.StockItem.id it = Some row
            /\ it = shown (Main.StockItem.id it, row)
            /\ Str.lower (Db.s_item_name row) =
                 pre +:+ Str.lower text +:+ post)
    /\ NoDup (map Main.StockItem.id items).
Proof.
  intros Hst Hplain.
  unfold Main.search_stocks_by_name, Db.guard_all, Db.bind.
  unfold Db.select_stocks_like.
  set (le := fun a b : Z * Db.StockRow =>
               String.leb (Db.s_item_name a.2) (Db.s_item_name b.2)).
  set (found := filter _ (map_to_list (Db.stock_items st))).
  set (rows := Db.order_by le found).
  assert (Hin : forall row, row ∈ rows <->
            Db.stock_items st !! row.1 = Some row.2
            /\ exists pre post,
                 Str.lower (Db.s_item_name row.2) =
                 pre +:+ Str.lower text +:+ post).
  { intros [i r]. unfold rows, found.
    rewrite elem_of_order_by, list_elem_of_filter, elem_of_map_to_list.
    cbn [fst snd]. rewrite Is_true_true, search_pattern_infix by done.
    tauto. }
  rewrite (stock_items_of_nonneg rows st)
    by (eapply nonneg_rows; [done|]; intros row Hrow; by apply Hin).
  exists (map shown rows). split; [done|]. split.
  - intros it. rewrite list_elem_of_fmap. split.
    + intros ([i r] & -> & Hrow).
      apply Hin in Hrow as [Hr (pre & post & Hname)]. by exists r, pre, post.
    + intros (r & pre & post & Hr & Hit & Hname).
      exists (Main.StockItem.id it, r). split; [done|].
      apply Hin. split; [done|]. by exists pre, post.
  - rewrite map_map. cbn.
    assert (Hperm : map fst rows ≡ₚ found.*1)
      by apply fmap_Permutation, order_by_perm.
    change (NoDup (map fst rows)). rewrite Hperm.
    unfold found. apply NoDup_fmap_fst.
    + intros i r1 r2 [_ H1%elem_of_map_to_list]%list_elem_of_filter
        [_ H2%elem_of_map_to_list]%list_elem_of_filter. congruence.
    + apply NoDup_filter, NoDup_map_to_list.
Qed.

Lemma search_stocks_by_name_substring_witness :
  quantities_nonneg Example.catalog /\
  plain_text "OK" = true /\
  exists items,
    Main.search_stocks_by_name "OK" Example.catalog =
      (Db.Return items, Example.catalog)
    /\ (forall it, it ∈ items <->
          exists row pre post,
            Db.stock_items Example.catalog !! Main.StockItem.id it = Some row
            /\ it = shown (Main.StockItem.id it, row)
            /\ Str.lower (Db.s_item_name row) = pre +:+ Str.lower "OK" +:+ post)
    /\ NoDup (map Main.StockItem.id items).
Proof.
  split; [exact example_catalog_nonneg|]. split; [reflexivity|].
  exact (search_stocks_by_name_substring Example.catalog "OK"
           example_catalog_nonneg eq_refl).
Defined.

(** ** Deleting and restocking *)

Lemma unreferenced_filter st item_id :
  unreferenced st item_id ->
  filter (fun v : Z * Db.VariantRow => Db.v_stock_item_id v.2 = item_id)
    (map_to_list (Db.item_variants st)) = [].
Proof.
  intros Hun. apply head_None, head_filter_miss. intros [vid v] Hv.
  apply elem_of_map_to_list in Hv. by apply (Hun vid v).
Qed.

Lemma delete_stock_absent on_delete st item_id :
  Db.stock_items st !! item_id = None ->
  Main.delete_stock on_delete item_id st = (Db.Raise (Main.not_found item_id), st).
Proof.
  intros Hnone. unfold Main.delete_stock, Db.guard, Db.bind, Db.delete_stock_row.
  by rewrite Hnone.
Qed.

Lemma get_stock_by_id_absent st item_id :
  Db.stock_items st !! item_id = None ->
  Main.get_stock_by_id item_id st = (Db.Raise (Main.not_found item_id), st).
Proof.
  intros Hnone. unfold Main.get_stock_by_id. db_unfold. by rewrite Hnone.
Qed.

(** X5. Whatever the schema does to variants on a delete: deleting an
    absent id fails with status 404 and changes nothing; deleting an item
    that no variant refers to removes exactly that row and names the item
    and its id in the answer, after which reading or deleting the id fails
    with status 404. *)
Theorem delete_stock_removes
    (on_delete : Db.OnDelete) (st : Db.Store) (item_id : Z) :
  unreferenced st item_id ->
  match Db.stock_items st !! item_id with
  | None =>
      Main.delete_stock on_delete item_id st =
        (Db.Raise (Main.not_found item_id), st)
  | Some row =>
      let st' := Db.with_stock_items st (delete item_id (Db.stock_items st)) in
      Main.delete_stock on_delete item_id st =
        (Db.Return
           ("Stock item '" +:+ Db.s_item_name row +:+ "' (ID: " +:+
            Str.of_Z item_id +:+ ") deleted successfully"), st')
      /\ (forall j, j <> item_id ->
            Db.stock_items st' !! j = Db.stock_items st !! j)
      /\ Main.get_stock_by_id item_id st' =
           (Db.Raise (Main.not_found item_id), st')
      /\ Main.delete_stock on_delete item_id st' =
           (Db.Raise (Main.not_found item_id), st')
  end.
Proof.
  intros Hun.
  destruct (Db.stock_items st !! item_id) as [row|] eqn:Hrow;
    [|by apply delete_stock_absent].
  cbn zeta.
  assert (Hgone : Db.stock_items
            (Db.with_stock_items st (delete item_id (Db.stock_items st)))
            !! item_id = None) by apply lookup_delete_eq.
  split; [|split; [|split]].
  - unfold Main.delete_stock, Db.guard, Db.bind, Db.delete_stock_row.
    rewrite Hrow, (unreferenced_filter st item_id Hun).
    by destruct on_delete.
  - intros j Hj. cbn. by apply lookup_delete_ne.
  - by apply get_stock_by_id_absent.
  - by apply delete_stock_absent.
Qed.

Lemma example_lays_unreferenced : unreferenced Example.catalog 2.
Proof.
  intros vid v Hv. cbn in Hv.
  apply lookup_insert_Some in Hv as [[_ <-]|[_ Hv]]; [done|].
  by rewrite lookup_empty in Hv.
Qed.

Lemma delete_stock_removes_witness :
  unreferenced Example.catalog 2 /\
  Main.delete_stock Db.Restrict 2 Example.catalog =
    (Db.Return "Stock item 'Lays' (ID: 2) deleted successfully",
     Db.with_stock_items Example.catalog
       (delete 2 (Db.stock_items Example.catalog))).
Proof.
  split; [exact example_lays_unreferenced|].
  exact (proj1 (delete_stock_removes Db.Restrict Example.catalog 2
                  example_lays_unreferenced)).
Defined.





Lemma with_stock_items_twice st m1 m2 :
  Db.with_stock_items (Db.with_stock_items st m1) m2 = Db.with_stock_items st m2.
Proof. done. Qed.




(** ** Failures of the REST handlers *)

Lemma answers_within_guard_all {A} failure (body : Db.DB A) st :
  answers_within [500] (Db.guard_all failure body st).
Proof.
  unfold answers_within, Db.guard_all.
  destruct (body st) as [[a|e] st']; cbn; [done|]. by left.
Qed.

Lemma answers_within_guard {A} codes failure (body : Db.DB A) st :
  match (body st).1 with
  | Db.Raise (Db.HTTPException code _) => code ∈ codes
  | _ => True
  end ->
  answers_within (500 :: codes) (Db.guard failure body st).
Proof.
  unfold answers_within, Db.guard.
  destruct (body st) as [[a|[code d|what]] st']; cbn; [done| |].
  - intros Hcode. by right.
  - intros _. by left.
Qed.

(** X8. Whatever the store and the arguments, a REST handler either
    answers or raises an [HTTPException]; the statuses it can raise are
    404 and 500 for reading, restocking and deleting one item, 500 for the
    three listings, 400 and 500 for creating, and 400, 404 and 500 for
    updating and purchasing.  No other exception leaves a handler. *)
Theorem handlers_raise_http_only
    (st : Db.Store) (item_id threshold : Z) (text : string)
    (create : Main.StockItemCreate.t) (upd : Main.StockItemUpdate.t)
    (restock : Main.AddQuantityRequest.t) (purchase : Main.PurchaseRequest.t)
    (on_delete : Db.OnDelete) :
  answers_within [500; 404] (Main.get_stock_by_id item_id st)
  /\ answers_within [500] (Main.get_all_stocks st)
  /\ answers_within [500] (Main.search_stocks_by_name text st)
  /\ answers_within [500] (Main.get_low_stock_items threshold st)
  /\ answers_within [500; 400] (Main.add_stock create st)
  /\ answers_within [500; 400; 404] (Main.update_stock item_id upd st)
  /\ answers_within [500; 404] (Main.add_quantity_to_stock item_id restock st)
  /\ answers_within [500; 400; 404] (Main.purchase_item purchase st)
  /\ answers_within [500; 404] (Main.delete_stock on_delete item_id st).
Proof.
  repeat split; try apply answers_within_guard_all; apply answers_within_guard.
  - unfold Db.bind, Db.select_stock, Main.StockItem.of_row, Db.ret, Db.raise.
    destruct (Db.stock_items st !! item_id); cbn; [|set_solver].
    by destruct (0 <=? _).
  - unfold Db.bind, Db.select_id_by_name, Db.insert_stock,
      Main.StockItem.of_row, Db.ret, Db.raise.
    cbn. destruct (Db.truthy _); cbn; [set_solver|].
    destruct (Db.stock_items st !! Db.stock_items_id_seq st); cbn; [done|].
    by destruct (0 <=? _).
  - unfold Db.bind, Db.select_stock_id, Db.update_stock_set,
      Main.StockItem.of_row, Db.ret, Db.raise.
    cbn. destruct (negb _); cbn; [set_solver|].
    destruct (Main.update_fields upd); cbn; [set_solver|].
    destruct (Db.stock_items st !! item_id); cbn; [|done].
    by destruct (0 <=? _).
  - unfold Db.bind, Db.update_stock_add, Main.StockItem.of_row, Db.ret,
      Db.raise.
    destruct (Db.stock_items st !! item_id); cbn; [|set_solver].
    by destruct (0 <=? _).
  - unfold Db.transaction, Db.bind, Db.select_stock, Db.update_stock_quantity,
      Db.ret, Db.raise.
    destruct (Db.stock_items st !! Main.PurchaseRequest.item_id purchase)
      as [row|] eqn:Hrow; cbn; [|set_solver].
    destruct (Db.s_quantity row <? _); cbn; [set_solver|].
    by rewrite Hrow.
  - unfold Db.bind, Db.delete_stock_row, Db.ret, Db.raise.
    destruct (Db.stock_items st !! item_id); cbn; [|set_solver].
    destruct (filter _ _); [done|]. by destruct on_delete.
Qed.

(** X9. A purchase that fails, for whatever reason, leaves the store
    exactly as it was: the handler raises inside its transaction, which
    rolls back. *)
Theorem purchase_item_failure_rolls_back
    (st st' : Db.Store) (purchase : Main.PurchaseRequest.t) (e : Db.Exn) :
  Main.purchase_item purchase st = (Db.Raise e, st') -> st' = st.
Proof.
  unfold Main.purchase_item, Db.guard.
  destruct (Db.transaction _ st) as [[receipt|e'] st''] eqn:Hrun; [done|].
  apply transaction_rollback in Hrun as ->.
  destruct e'; by intros [= _ <-].
Qed.

Lemma purchase_item_failure_rolls_back_witness :
  Main.purchase_item
    {| Main.PurchaseRequest.item_id := 1;
       Main.PurchaseRequest.quantity := 6 |} Example.catalog =
    (Db.Raise
       (Db.HTTPException 400 "Insufficient stock. Available: 5, Requested: 6"),
     Example.catalog)
  /\ Example.catalog = Example.catalog.
Proof.
  assert (Hrun : Main.purchase_item
            {| Main.PurchaseRequest.item_id := 1;
               Main.PurchaseRequest.quantity := 6 |} Example.catalog =
            (Db.Raise
               (Db.HTTPException 400
                  "Insufficient stock. Available: 5, Requested: 6"),
             Example.catalog)) by reflexivity.
  split; [exact Hrun|].
  exact (purchase_item_failure_rolls_back _ _ _ _ Hrun).
Defined.

(** ** Updating twice *)

Lemma foldl_assign_idem row upd :
  foldl Db.assign (foldl Db.assign row (Main.update_fields upd))
    (Main.update_fields upd) =
  foldl Db.assign row (Main.update_fields upd).
Proof.
  unfold Main.update_fields.
  by destruct upd as [[name|] [qty|] [unit|]], row.
Qed.

Lemma ids_generated_overwrite st item_id row row' :
  ids_generated st ->
  Db.stock_items st !! item_id = Some row ->
  ids_generated
    (Db.with_stock_items st (<[item_id := row']> (Db.stock_items st))).
Proof.
  intros [Hseq Hids] Hrow. split; [done|]. cbn.
  apply map_Forall_insert_2; [|done]. by apply Hids in Hrow.
Qed.

(** X10. An update that succeeded can be repeated: the second call
    returns the same item and leaves the store as the first call left
    it. *)
Theorem update_stock_idempotent
    (st st' : Db.Store) (item_id : Z) (upd : Main.StockItemUpdate.t)
    (updated : Main.StockItem.t) :
  ids_generated st ->
  Main.update_stock item_id upd st = (Db.Return updated, st') ->
  Main.update_stock item_id upd st' = (Db.Return updated, st').
Proof.
  intros Hids Hrun.
  destruct (Db.stock_items st !! item_id) as [row|] eqn:Hrow;
    [|by rewrite update_stock_absent in Hrun].
  rewrite (update_stock_present st item_id upd row Hids Hrow) in Hrun.
  destruct (Main.update_fields upd) as [|a fields] eqn:Hfields; [done|].
  rewrite <- Hfields in Hrun. cbn zeta in Hrun.
  set (row' := foldl Db.assign row (Main.update_fields upd)) in *.
  destruct (0 <=? Db.s_quantity row') eqn:Hq; [|done].
  injection Hrun as <- <-.
  rewrite (update_stock_present _ item_id upd row');
    [|by eapply ids_generated_overwrite|apply lookup_insert_eq].
  rewrite Hfields, <- Hfields. cbn zeta.
  unfold row'. rewrite foldl_assign_idem. fold row'. rewrite Hq.
  f_equal. rewrite with_stock_items_twice. cbn [Db.stock_items Db.with_stock_items].
  by rewrite insert_insert_eq.
Qed.

Lemma update_stock_idempotent_witness :
  ids_generated Example.catalog /\
  exists updated st',
    Main.update_stock 1 Example.set_unit_cans Example.catalog =
      (Db.Return updated, st')
    /\ Main.update_stock 1 Example.set_unit_cans st' = (Db.Return updated, st').
Proof.
  split; [exact example_catalog_ids|].
  eexists _, _. split; [reflexivity|].
  exact (update_stock_idempotent Example.catalog _ 1 Example.set_unit_cans _
           example_catalog_ids eq_refl).
Defined.

(** ** Messages and names of the voice agent *)

Lemma remove_from_star s :
  Str.remove_from ["*"%char] 0 s = filter (fun c => c <> "*"%char) s.
Proof.
  induction s as [|c s IH]; [done|].
  cbn [Str.remove_from Str.starts_with List.length Nat.pred].
  destruct (Ascii.eqb_spec "*" c) as [<-|Hne].
  - rewrite IH. by rewrite filter_cons_False by (intros ?; done).
  - rewrite IH. by rewrite filter_cons_True by (intros ->; done).
Qed.

Lemma remove_from_absent o old s :
  Forall (fun c => c <> o) s ->
  Str.remove_from (o :: old) 0 s = s.
Proof.
  induction 1 as [|c s Hc _ IH]; [done|].
  cbn [Str.remove_from Str.starts_with].
  destruct (Ascii.eqb_spec o c) as [->|_]; [done|]. by rewrite IH.
Qed.

Lemma filter_absent (x : ascii) (l : list ascii) :
  x ∉ l -> filter (fun c => c <> x) l = l.
Proof.
  induction l as [|c l IH]; [done|].
  intros [Hc Hl]%not_elem_of_cons.
  rewrite filter_cons_True by done. by rewrite IH.
Qed.

(** X11. [_format_message] returns its argument with every asterisk
    removed and every other character kept in place; in particular the
    result holds no asterisk, and a message without asterisks is returned
    as it is. *)
Theorem format_message_strips_asterisks (message : string) :
  list_ascii_of_string (Tool._format_message message) =
    filter (fun c => c <> "*"%char) (list_ascii_of_string message)
  /\ ("*"%char ∉ list_ascii_of_string (Tool._format_message message))
  /\ ("*"%char ∉ list_ascii_of_string message ->
      Tool._format_message message = message).
Proof.
  assert (Hchars : list_ascii_of_string (Tool._format_message message) =
            filter (fun c => c <> "*"%char) (list_ascii_of_string message)).
  { unfold Tool._format_message, Str.remove_all.
    cbn [list_ascii_of_string].
    rewrite !list_ascii_of_string_of_list_ascii, remove_from_star.
    apply remove_from_absent, Forall_forall. intros c Hc.
    by apply list_elem_of_filter in Hc as [Hc _]. }
  split; [exact Hchars|]. split.
  - rewrite Hchars. intros Hin.
    apply list_elem_of_filter in Hin as [Hne _]. by apply Hne.
  - intros Hnone.
    rewrite <- (string_of_list_ascii_of_string (Tool._format_message message)).
    rewrite Hchars, filter_absent by done.
    apply string_of_list_ascii_of_string.
Qed.

Lemma canonical_fixed kind key canonical :
  mapping_table kind !! key = Some canonical ->
  normalize kind canonical = canonical.
Proof.
  destruct kind; cbn [mapping_table];
    unfold ITEM_MAPPINGS, VARIANT_MAPPINGS, CATEGORY_MAPPINGS;
    intros Hin%elem_of_list_to_map_2;
    repeat (apply elem_of_cons in Hin as [[= _ ->]|Hin];
            [by vm_compute|]);
    by apply elem_of_nil in Hin.
Qed.

(** X12. Normalizing is idempotent for each kind of name: a canonical
    name is mapped to itself, so normalizing a second time changes
    nothing. *)
Theorem normalize_idempotent (kind : Kind) (text : string) :
  normalize kind (normalize kind text) = normalize kind text.
Proof.
  rewrite (normalize_refines kind text). unfold normalize_spec.
  destruct (mapping_table kind !! Str.lower (Str.strip text))
    as [canonical|] eqn:Hkey.
  - by eapply canonical_fixed.
  - rewrite normalize_refines. unfold normalize_spec. by rewrite Hkey.
Qed.

(** ** The cart *)



Lemma add_to_cart_cases st cart item_name quantity variant :
  (exists refusal,
      Tool.add_to_cart st cart item_name quantity variant = (refusal, cart))
  \/ (exists row,
        resolve st item_name variant = Some row
        /\ quantity <= Tool.Row.quantity row
        /\ Tool.add_to_cart st cart item_name quantity variant =
             (added row quantity
                (Tool.cart_total_of (cart ++ [line_of row quantity])),
              cart ++ [line_of row quantity])).
Proof.
  destruct (resolve st item_name variant) as [row|] eqn:Hrow.
  - rewrite (add_to_cart_resolved st cart item_name quantity variant row Hrow).
    destruct (Z.ltb_spec (Tool.Row.quantity row) quantity);
      [left; by eexists | right; by exists row].
  - left. destruct (add_to_cart_unresolved st item_name quantity variant Hrow)
      as [refusal Hrefusal]. by exists refusal.
Qed.



(** ** The receipt and the reach of checkout *)

Lemma checkout_loop_completed items details total st d t st' :
  Tool.checkout_loop items details total st =
    (Db.Return (Tool.Completed d t), st') ->
  d = details ++ map Tool.purchase_detail items
  /\ t = foldl (fun acc line => acc + Tool.CartItem.total_price line) total items.
Proof.
  revert details total st.
  induction items as [|line rest IH]; intros details total st.
  { cbn. intros [= <- <- _]. by rewrite app_nil_r. }
  rewrite checkout_loop_cons.
  destruct (live st (backing line)) as [c|]; [|done].
  destruct (c <? Tool.CartItem.quantity line); [done|].
  intros Hrun. apply IH in Hrun as [-> ->]. cbn. by rewrite <- app_assoc.
Qed.

(** X14. When checkout succeeds on a non-empty cart, its receipt lists
    one detail per cart line, in cart order, and its total amount is the
    cart total. *)
Theorem complete_purchase_receipt
    (cart : list Tool.CartItem.t) (st st' : Db.Store) (message : string) :
  cart <> [] ->
  Tool.complete_purchase cart st = (message, [], st') ->
  message =
    Tool.receipt (map Tool.purchase_detail cart) (Tool.cart_total_of cart).
Proof.
  intros Hne. unfold Tool.complete_purchase, Db.transaction.
  destruct cart as [|l0 rest]; [done|].
  destruct (Tool.checkout_loop (l0 :: rest) [] 0 st)
    as [[[m|d t]|e] st1] eqn:Hloop; [done| |done].
  intros [= <- _]. by apply checkout_loop_completed in Hloop as [-> ->].
Qed.

Lemma same_but_quantities_refl st : same_but_quantities st st.
Proof. done. Qed.

Lemma same_but_quantities_trans st1 st2 st3 :
  same_but_quantities st1 st2 -> same_but_quantities st2 st3 ->
  same_but_quantities st1 st3.
Proof.
  intros (Hseq & Hs & Hv) (Hseq' & Hs' & Hv'). split; [congruence|].
  split; intros i; [by rewrite Hs', Hs | by rewrite Hv', Hv].
Qed.

Lemma set_quantity_frame st b q : same_but_quantities st (set_quantity st b q).
Proof.
  destruct b as [vid|sid]; cbn.
  - unfold Db.update_variant_quantity.
    destruct (Db.item_variants st !! vid) as [v|] eqn:Hv; [|done].
    split; [done|]. split; [done|]. intros i. cbn.
    destruct (decide (vid = i)) as [<-|Hne].
    + by rewrite lookup_insert_eq, Hv.
    + by rewrite lookup_insert_ne.
  - unfold Db.update_stock_quantity.
    destruct (Db.stock_items st !! sid) as [r|] eqn:Hr; [|done].
    split; [done|]. split; [|done]. intros i. cbn.
    destruct (decide (sid = i)) as [<-|Hne].
    + by rewrite lookup_insert_eq, Hr.
    + by rewrite lookup_insert_ne.
Qed.

Lemma checkout_loop_frame items details total st :
  same_but_quantities st (Tool.checkout_loop items details total st).2.
Proof.
  revert details total st.
  induction items as [|line rest IH]; intros details total st;
    [apply same_but_quantities_refl|].
  rewrite checkout_loop_cons.
  destruct (live st (backing line)) as [c|]; [|apply same_but_quantities_refl].
  destruct (c <? Tool.CartItem.quantity line);
    [apply same_but_quantities_refl|].
  eapply same_but_quantities_trans; [apply set_quantity_frame | apply IH].
Qed.

(** X15. Whatever the cart and however it ends, checkout writes nothing
    but quantities: it creates and deletes no row, and the names, units,
    prices and item references of all rows are afterwards what they were
    before. *)
Theorem complete_purchase_writes_quantities_only
    (cart : list Tool.CartItem.t) (st : Db.Store) :
  same_but_quantities st (Tool.complete_purchase cart st).2.
Proof.
  unfold Tool.complete_purchase, Db.transaction.
  destruct cart as [|l0 rest]; [apply same_but_quantities_refl|].
  pose proof (checkout_loop_frame (l0 :: rest) [] 0 st) as Hframe.
  destruct (Tool.checkout_loop (l0 :: rest) [] 0 st) as [[[m|d t]|e] st1];
    [done..|apply same_but_quantities_refl].
Qed.

(** ** From the shelf to the receipt *)


Lemma find_query_elem st mapped_item mapped_variant row :
  row ∈ Tool.find_query st mapped_item mapped_variant ->
  exists j, row = Tool.select_row j
            /\ j ∈ Tool.left_join st
            /\ Tool.where_variant mapped_variant j = true.
Proof.
  unfold Tool.find_query. intros Hrow.
  apply list_elem_of_fmap in Hrow as (j & -> & Hj).
  apply list_elem_of_filter in Hj as [Hw Hj].
  exists j. split; [done|]. split; [done|].
  apply Is_true_true in Hw. by apply andb_true_iff in Hw as [_ ?].
Qed.

Lemma resolve_elem st item_name variant row :
  resolve st item_name variant = Some row ->
  exists j, row = Tool.select_row j
            /\ j ∈ Tool.left_join st
            /\ Tool.where_variant
                 (if names_variant variant
                  then _map_variant_name variant else "Default") j = true.
Proof.
  unfold resolve. intros Hrow. apply head_Some_elem_of in Hrow.
  by apply find_query_elem in Hrow.
Qed.




Lemma complete_purchase_receipt_witness :
  exists message st',
    [line_of Example.coke_regular_row 2] <> []
    /\ Tool.complete_purchase [line_of Example.coke_regular_row 2]
         Example.catalog = (message, [], st')
    /\ message =
         Tool.receipt
           (map Tool.purchase_detail [line_of Example.coke_regular_row 2])
           (Tool.cart_total_of [line_of Example.coke_regular_row 2]).
Proof.
  assert (Hne : [line_of Example.coke_regular_row 2] <> []) by done.
  destruct (Tool.complete_purchase [line_of Example.coke_regular_row 2]
              Example.catalog) as [[message left] st'] eqn:Hrun.
  assert (Hleft : [] = left)
    by exact (f_equal (fun r : string * list Tool.CartItem.t * Db.Store =>
                         r.1.2) Hrun).
  subst left. exists message, st'. split; [exact Hne|].
  split; [reflexivity|].
  exact (complete_purchase_receipt _ _ _ _ Hne Hrun).
Defined.

(** ** What the agent reports and what it sells *)

Lemma get_stock_info_named st item_name variant :
  names_variant variant = true ->
  Tool.get_stock_info st item_name variant =
    match resolve st item_name variant with
    | Some row => in_stock row
    | None =>
        match Tool.variants_query st (_map_item_name item_name) with
        | [] => Tool.not_in_inventory item_name
        | variants =>
            match Tool.variant_list variants with
            | None =>
                "Sorry, I encountered an error while checking stock for '" +:+
                item_name +:+ "'. Please try again."
            | Some variant_list =>
                Tool._format_message
                  ("Sorry, I couldn't find '" +:+ variant +:+
                   "' variant of " +:+ item_name +:+
                   ". Available variants are: " +:+
                   Str.join ", " variant_list)
            end
        end
    end.
Proof.
  unfold names_variant, Tool.get_stock_info, resolve. intros ->.
  by destruct (head _).
Qed.

(** X17. For a named variant, [get_stock_info] and [add_to_cart] read
    the same row: when the stock report names a quantity and a price,
    every request for at most that quantity enters the cart at that price,
    and every larger request is refused with the cart unchanged. *)
Theorem get_stock_info_agrees_with_cart
    (st : Db.Store) (item_name variant : string) (row : Tool.Row.t) :
  names_variant variant = true ->
  resolve st item_name variant = Some row ->
  Tool.get_stock_info st item_name variant = in_stock row
  /\ forall cart q,
       if q <=? Tool.Row.quantity row then
         exists line,
           (Tool.add_to_cart st cart item_name q variant).2 = cart ++ [line]
           /\ Tool.CartItem.quantity line = q
           /\ Tool.CartItem.price_per_unit line = Tool.Row.price row
           /\ Tool.CartItem.unit line = Tool.Row.unit row
       else
         Tool.add_to_cart st cart item_name q variant = (only_have row, cart).
Proof.
  intros Hnamed Hrow. split.
  - by rewrite get_stock_info_named, Hrow.
  - intros cart q.
    rewrite (add_to_cart_resolved st cart item_name q variant row Hrow).
    destruct (Z.leb_spec q (Tool.Row.quantity row));
      destruct (Z.ltb_spec (Tool.Row.quantity row) q); try lia; [|done].
    by exists (line_of row q).
Qed.

Lemma get_stock_info_agrees_with_cart_witness :
  names_variant "small" = true /\
  resolve Example.catalog "cola" "small" = Some Example.coke_regular_row /\
  Tool.get_stock_info Example.catalog "cola" "small" =
    in_stock Example.coke_regular_row.
Proof.
  assert (Hrow : resolve Example.catalog "cola" "small" =
                 Some Example.coke_regular_row) by (vm_compute; reflexivity).
  split; [reflexivity|]. split; [exact Hrow|].
  exact (proj1 (get_stock_info_agrees_with_cart Example.catalog "cola" "small"
                  Example.coke_regular_row eq_refl Hrow)).
Defined.

Lemma app_singleton_neq {A} (l : list A) x : l <> l ++ [x].
Proof.
  intros Heq. apply (f_equal (@List.length A)) in Heq.
  rewrite length_app in Heq. cbn in Heq. lia.
Qed.

(** X18. When the caller names no variant, [add_to_cart] looks for the
    variant "Default": the line it adds, if any, is either an item without
    variant rows or a variant whose label is "Default" up to case and
    surrounding blanks.  An item sold only in named variants is never
    added without naming one. *)
Theorem add_to_cart_unnamed_takes_default
    (st : Db.Store) (cart : list Tool.CartItem.t)
    (item_name variant : string) (q : Z) (line : Tool.CartItem.t) :
  names_variant variant = false ->
  (Tool.add_to_cart st cart item_name q variant).2 = cart ++ [line] ->
  Tool.CartItem.variant_id line = None
  \/ Tool.same_name (Tool.CartItem.variant line) "Default" = true.
Proof.
  intros Hunnamed Hadd.
  destruct (add_to_cart_cases st cart item_name q variant)
    as [[refusal Hrun]|(row & Hrow & _ & Hrun)];
    rewrite Hrun in Hadd; cbn [snd] in Hadd.
  { by apply app_singleton_neq in Hadd. }
  apply app_inj_tail in Hadd as [_ <-].
  apply resolve_elem in Hrow as ([[sid s] v] & -> & _ & Hwhere).
  rewrite Hunnamed in Hwhere. unfold Tool.where_variant in Hwhere.
  cbn in *. destruct v as [[vid v]|]; [by right | by left].
Qed.

Lemma add_to_cart_unnamed_takes_default_witness :
  names_variant "" = false /\
  (Tool.add_to_cart Example.plain [] "cola" 3 "").2 =
    [] ++ [line_of Example.coke_row 3] /\
  (Tool.CartItem.variant_id (line_of Example.coke_row 3) = None
   \/ Tool.same_name (Tool.CartItem.variant (line_of Example.coke_row 3))
        "Default" = true).
Proof.
  assert (Hadd : (Tool.add_to_cart Example.plain [] "cola" 3 "").2 =
                 [] ++ [line_of Example.coke_row 3])
    by (vm_compute; reflexivity).
  split; [reflexivity|]. split; [exact Hadd|].
  exact (add_to_cart_unnamed_takes_default Example.plain [] "cola" "" 3
           (line_of Example.coke_row 3) eq_refl Hadd).
Defined.

(** ** The legacy purchase tool *)

Lemma contains_at_app pat pre s post :
  Str.starts_with pat s = true ->
  Str.contains_at pat (pre ++ s ++ post) = true.
Proof.
  intros Hs. induction pre as [|c pre IH].
  - cbn [app]. assert (Hstart : Str.starts_with pat (s ++ post) = true).
    { clear -Hs. revert s Hs. induction pat as [|p pat IH]; intros s Hs;
        [by destruct s|].
      destruct s as [|c s]; [done|]. cbn in *.
      destruct (Ascii.eqb p c); [by apply IH | done]. }
    destruct (s ++ post); cbn; by rewrite Hstart.
  - cbn. rewrite IH. apply orb_true_r.
Qed.

Lemma starts_with_refl pat : Str.starts_with pat pat = true.
Proof. induction pat as [|c pat IH]; [done|]. cbn. by rewrite Ascii.eqb_refl. Qed.

Lemma contains_app pat pre post :
  Str.contains pat (pre +:+ pat +:+ post) = true.
Proof.
  unfold Str.contains. rewrite !list_ascii_of_string_app.
  apply contains_at_app, starts_with_refl.
Qed.

Lemma contains_inside pat pre s post :
  Str.contains pat s = true ->
  Str.contains pat (pre +:+ s +:+ post) = true.
Proof.
  unfold Str.contains. rewrite !list_ascii_of_string_app.
  generalize (list_ascii_of_string pat) (list_ascii_of_string s)
    (list_ascii_of_string pre) (list_ascii_of_string post).
  intros p l lpre lpost Hl.
  assert (Hsplit : exists a b, l = a ++ b /\ Str.starts_with p b = true).
  { induction l as [|c l IH].
    - exists [], []. split; [done|]. cbn in Hl. by rewrite orb_false_r in Hl.
    - cbn [Str.contains_at] in Hl. apply orb_true_iff in Hl as [Hl|Hl].
      + by exists [], (c :: l).
      + destruct (IH Hl) as (a & b & -> & Hb). by exists (c :: a), b. }
  destruct Hsplit as (a & b & -> & Hb).
  rewrite <- (app_nil_r b), <- !app_assoc, (app_assoc lpre a).
  by apply contains_at_app.
Qed.

(** X19. The legacy [purchase_item] leaves the cart exactly as
    [add_to_cart] does.  When the item goes into the cart it returns the
    add message followed by the cart listing and a question; and it
    recognises success by the word "Added" alone, so the not-found reply
    for an item whose name contains that word is followed by the cart
    listing and the question as well. *)
Theorem purchase_item_follows_add_to_cart
    (st : Db.Store) (cart : list Tool.CartItem.t)
    (item_name variant : string) (q : Z) :
  (Tool.purchase_item st cart item_name q variant).2 =
    (Tool.add_to_cart st cart item_name q variant).2
  /\ (forall row,
        resolve st item_name variant = Some row ->
        q <= Tool.Row.quantity row ->
        Tool.purchase_item st cart item_name q variant =
          (with_cart_shown
             (added row q (Tool.cart_total_of (cart ++ [line_of row q])))
             (cart ++ [line_of row q]),
           cart ++ [line_of row q]))
  /\ (resolve st item_name variant = None ->
      Tool.variants_query st (_map_item_name item_name) = [] ->
      Str.contains "Added" item_name = true ->
      Tool.purchase_item st cart item_name q variant =
        (with_cart_shown (Tool.not_in_inventory item_name) cart, cart)).
Proof.
  split; [|split].
  - unfold Tool.purchase_item.
    destruct (Tool.add_to_cart st cart item_name q variant) as [m c].
    by destruct (Str.contains "Added" m).
  - intros row Hrow Hq. unfold Tool.purchase_item.
    rewrite (add_to_cart_resolved st cart item_name q variant row Hrow).
    destruct (Z.ltb_spec (Tool.Row.quantity row) q); [lia|].
    assert (Hword : forall rest, Str.contains "Added" ("Added " +:+ rest) = true)
      by (intros rest; apply (contains_app "Added" "" (" " +:+ rest))).
    unfold added at 1. by rewrite Hword.
  - intros Hnone Hvariants Hname. unfold Tool.purchase_item, Tool.add_to_cart.
    unfold resolve in Hnone. rewrite Hnone, Hvariants.
    unfold Tool.not_in_inventory at 1.
    by rewrite (contains_inside "Added" _ item_name _ Hname).
Qed.

Lemma purchase_item_follows_add_to_cart_witness :
  resolve Example.catalog "Added sugar" "" = None /\
  Tool.variants_query Example.catalog (_map_item_name "Added sugar") = [] /\
  Str.contains "Added" "Added sugar" = true /\
  Tool.purchase_item Example.catalog [] "Added sugar" 1 "" =
    (with_cart_shown (Tool.not_in_inventory "Added sugar") [], []) /\
  resolve Example.catalog "cola" "small" = Some Example.coke_regular_row /\
  2 <= Tool.Row.quantity Example.coke_regular_row /\
  Tool.purchase_item Example.catalog [] "cola" 2 "small" =
    (with_cart_shown
       (added Example.coke_regular_row 2
          (Tool.cart_total_of ([] ++ [line_of Example.coke_regular_row 2])))
       ([] ++ [line_of Example.coke_regular_row 2]),
     [] ++ [line_of Example.coke_regular_row 2]).
Proof.
  assert (Hnone : resolve Example.catalog "Added sugar" "" = None)
    by (vm_compute; reflexivity).
  assert (Hvariants : Tool.variants_query Example.catalog
                        (_map_item_name "Added sugar") = [])
    by (vm_compute; reflexivity).
  assert (Hrow : resolve Example.catalog "cola" "small" =
                 Some Example.coke_regular_row) by (vm_compute; reflexivity).
  assert (Hq : 2 <= Tool.Row.quantity Example.coke_regular_row) by (cbn; lia).
  split; [exact Hnone|]. split; [exact Hvariants|]. split; [reflexivity|].
  split.
  - exact (proj2 (proj2 (purchase_item_follows_add_to_cart Example.catalog []
                           "Added sugar" "" 1)) Hnone Hvariants eq_refl).
  - split; [exact Hrow|]. split; [exact Hq|].
    exact (proj1 (proj2 (purchase_item_follows_add_to_cart Example.catalog []
                           "cola" "small" 2)) _ Hrow Hq).
Defined.

(** ** Listing the variants of an item *)

Lemma get_item_variants_not_found_witness :
  (forall i s,
      Db.stock_items Example.plain !! i = Some s ->
      Tool.same_name (Db.s_item_name s) (_map_item_name "tea") = false) /\
  Tool.get_item_variants Example.plain "tea" = Tool.not_in_inventory "tea".
Proof.
  assert (Hnone : forall i s,
             Db.stock_items Example.plain !! i = Some s ->
             Tool.same_name (Db.s_item_name s) (_map_item_name "tea") = false).
  { intros i s Hs. cbn in Hs.
    apply lookup_insert_Some in Hs as [[_ <-]|[_ Hs]]; [by vm_compute|].
    apply lookup_insert_Some in Hs as [[_ <-]|[_ Hs]]; [by vm_compute|].
    by rewrite lookup_empty in Hs. }
  split; [exact Hnone|].
  exact (get_item_variants_not_found Example.plain "tea" Hnone).
Defined.

Lemma example_plain_unreferenced i : unreferenced Example.plain i.
Proof. intros vid v Hv. cbn in Hv. by rewrite lookup_empty in Hv. Qed.

Lemma example_plain_only_lays i r :
  Db.stock_items Example.plain !! i = Some r ->
  Tool.same_name (Db.s_item_name r) "Lays" = true -> i = 2.
Proof.
  cbn. intros Hr.
  apply lookup_insert_Some in Hr as [[_ <-]|[_ Hr]]; [by vm_compute|].
  apply lookup_insert_Some in Hr as [[<- _]|[_ Hr]]; [done|].
  by rewrite lookup_empty in Hr.
Qed.

Lemma variants_rows_single_witness :
  Db.stock_items Example.plain !! 2 = Some Example.lays /\
  unreferenced Example.plain 2 /\
  Tool.same_name (Db.s_item_name Example.lays) "Lays" = true /\
  Tool.variants_rows Example.plain "Lays" =
    [ {| Tool.Row.stock_item_id := 2;
         Tool.Row.item_name := Db.s_item_name Example.lays;
         Tool.Row.variant := "Default";
         Tool.Row.quantity := Db.s_quantity Example.lays;
         Tool.Row.unit := Db.s_unit Example.lays;
         Tool.Row.price := 0;
         Tool.Row.variant_id := None |} ].
Proof.
  split; [reflexivity|]. split; [exact (example_plain_unreferenced 2)|].
  split; [reflexivity|].
  exact (variants_rows_single Example.plain "Lays" 2 Example.lays eq_refl
           (example_plain_unreferenced 2) eq_refl example_plain_only_lays).
Defined.



(** ** Items by category *)




(** ** The session event log *)

Lemma string_app_assoc a b c : (a +:+ b) +:+ c = a +:+ b +:+ c.
Proof.
  induction a as [|x a IH]; [reflexivity|].
  change (String x ((a +:+ b) +:+ c) = String x (a +:+ b +:+ c)).
  by rewrite IH.
Qed.

Lemma string_app_nil_r a : a +:+ "" = a.
Proof.
  induction a as [|x a IH]; [reflexivity|].
  change (String x (a +:+ "") = String x a). by rewrite IH.
Qed.

Section Logger.
Context (clock : nat -> Z) (strftime isoformat : Z -> string)
  (dumps : string -> string -> string -> string).

Local Abbreviation log_event :=
  (ChatLogger.log_event clock strftime isoformat dumps).

Lemma append_to_ok dir path text w :
  dir ∈ ChatLogger.dirs w ->
  ChatLogger.append_to dir path text w =
    Some {| ChatLogger.dirs := ChatLogger.dirs w;
            ChatLogger.files :=
              <[path := default "" (ChatLogger.files w !! path) +:+ text]>
                (ChatLogger.files w);
            ChatLogger.reads := ChatLogger.reads w |}.
Proof.
  intros Hdir. unfold ChatLogger.append_to.
  rewrite (bool_decide_eq_true_2 _ Hdir). by rewrite orb_true_r.
Qed.

(** One event with a session under way. *)
Lemma log_event_active depth source message self w path :
  ChatLogger.has_session self = true ->
  ChatLogger.current_log_file self = Some path ->
  can_write self w ->
  log_event (S depth) source message self w =
    ChatLogger.Done self
      {| ChatLogger.dirs := ChatLogger.dirs w;
         ChatLogger.files :=
           <[path := default "" (ChatLogger.files w !! path) +:+
                     dumps (isoformat (clock (ChatLogger.reads w)))
                       source message +:+ Str.nl]>
             (ChatLogger.files w);
         ChatLogger.reads := S (ChatLogger.reads w) |}.
Proof.
  intros Hsession Hfile Hdir. cbn [ChatLogger.log_event].
  rewrite Hsession. cbn [ChatLogger.now]. rewrite Hfile.
  by rewrite append_to_ok.
Qed.

(** The first event of a logger without a session. *)
Lemma log_event_fresh depth source message self w :
  ChatLogger.has_session self = false ->
  Str.nonempty (strftime (clock (ChatLogger.reads w))) = true ->
  can_write self w ->
  let timestamp := strftime (clock (ChatLogger.reads w)) in
  let path :=
    ChatLogger.path_join (ChatLogger.log_dir self)
      ("chat_session_" +:+ timestamp +:+ ".json") in
  log_event (S (S depth)) source message self w =
    ChatLogger.Done
      {| ChatLogger.log_dir := ChatLogger.log_dir self;
         ChatLogger.current_session := Some timestamp;
         ChatLogger.current_log_file := Some path |}
      {| ChatLogger.dirs := ChatLogger.dirs w;
         ChatLogger.files :=
           <[path := default "" (ChatLogger.files w !! path) +:+
                     event_lines clock isoformat dumps
                       (S (ChatLogger.reads w))
                       [("system", "Chat session started");
                        (source, message)]]>
             (ChatLogger.files w);
         ChatLogger.reads := S (S (S (ChatLogger.reads w))) |}.
Proof.
  intros Hfresh Hstamp Hdir timestamp path.
  remember (S depth) as d eqn:Hd. cbn [ChatLogger.log_event].
  rewrite Hfresh. cbn [ChatLogger.now]. subst d.
  rewrite (log_event_active depth "system" "Chat session started" _ _ path);
    [|done..].
  cbn [ChatLogger.now ChatLogger.current_log_file ChatLogger.log_dir
       ChatLogger.reads ChatLogger.dirs ChatLogger.files].
  rewrite append_to_ok by done.
  cbn [ChatLogger.dirs ChatLogger.files ChatLogger.reads].
  rewrite lookup_insert_eq, insert_insert_eq. cbn [default event_lines fst snd].
  unfold id. by rewrite !string_app_assoc, string_app_nil_r.
Qed.

(** X21. A call of [log_event] never shortens, rewrites or removes a
    file and never touches the directories, whether it returns or
    raises: what a file held before is a prefix of what it holds
    after. *)
Theorem log_event_appends_only
    (depth : nat) (source message : string)
    (self : ChatLogger.t) (w : ChatLogger.World) :
  let w' := world_of (log_event depth source message self w) in
  ChatLogger.dirs w' = ChatLogger.dirs w
  /\ forall path content,
       ChatLogger.files w !! path = Some content ->
       exists more, ChatLogger.files w' !! path = Some (content +:+ more).
Proof.
  revert source message self w.
  induction depth as [|depth IH]; intros source message self w.
  { split; [done|]. intros path content Hpath. exists "".
    by rewrite string_app_nil_r. }
  cbn [ChatLogger.log_event].
  set (started := if ChatLogger.has_session self then _ else _).
  assert (Hstarted :
            ChatLogger.dirs (world_of started) = ChatLogger.dirs w
            /\ forall path content,
                 ChatLogger.files w !! path = Some content ->
                 exists more,
                   ChatLogger.files (world_of started) !! path =
                   Some (content +:+ more)).
  { unfold started. destruct (ChatLogger.has_session self).
    - split; [done|]. intros path content Hpath. exists "".
      by rewrite string_app_nil_r.
    - cbn [ChatLogger.now].
      apply (IH "system" "Chat session started" _
               {| ChatLogger.dirs := ChatLogger.dirs w;
                  ChatLogger.files := ChatLogger.files w;
                  ChatLogger.reads := S (ChatLogger.reads w) |}). }
  destruct started as [self' w1|what self' w1]; cbn [world_of] in *;
    [|done].
  destruct Hstarted as [Hdirs Hfiles]. cbn [ChatLogger.now].
  destruct (ChatLogger.current_log_file self') as [file|];
    cbn [world_of]; [|done].
  unfold ChatLogger.append_to.
  cbn [ChatLogger.dirs ChatLogger.files ChatLogger.reads].
  destruct (_ || _); cbn [world_of ChatLogger.dirs ChatLogger.files];
    [|done].
  split; [done|]. intros path content Hpath.
  destruct (Hfiles path content Hpath) as [more Hmore].
  destruct (decide (file = path)) as [->|Hne].
  - rewrite lookup_insert_eq, Hmore. cbn [default]. unfold id.
    rewrite string_app_assoc. by eexists.
  - rewrite lookup_insert_ne by done. by exists more.
Qed.

Lemma log_all_active depth events self w path :
  ChatLogger.has_session self = true ->
  ChatLogger.current_log_file self = Some path ->
  can_write self w ->
  log_all clock strftime isoformat dumps (S depth) events self w =
    ChatLogger.Done self
      {| ChatLogger.dirs := ChatLogger.dirs w;
         ChatLogger.files :=
           match events with
           | [] => ChatLogger.files w
           | _ =>
               <[path := default "" (ChatLogger.files w !! path) +:+
                         event_lines clock isoformat dumps
                           (ChatLogger.reads w) events]>
                 (ChatLogger.files w)
           end;
         ChatLogger.reads := (List.length events + ChatLogger.reads w)%nat |}.
Proof.
  intros Hsession Hfile. revert w.
  induction events as [|[source message] events IH]; intros w Hdir.
  { by destruct w. }
  cbn [log_all fst snd].
  rewrite (log_event_active depth source message self w path) by done.
  rewrite IH by done.
  cbn [ChatLogger.dirs ChatLogger.files ChatLogger.reads List.length].
  f_equal. f_equal; [|lia].
  destruct events as [|event events]; cbn [event_lines fst snd].
  - by rewrite string_app_nil_r.
  - rewrite lookup_insert_eq, insert_insert_eq. cbn [default]. unfold id.
    by rewrite !string_app_assoc.
Qed.
End Logger.

Lemma event_lines_app clock isoformat dumps first events more :
  event_lines clock isoformat dumps first (events ++ more) =
  event_lines clock isoformat dumps first events +:+
  event_lines clock isoformat dumps (List.length events + first) more.
Proof.
  revert first. induction events as [|event events IH]; intros first; [done|].
  cbn [app event_lines List.length]. rewrite IH, !string_app_assoc.
  by replace (List.length events + S first)%nat
    with (S (List.length events) + first)%nat by lia.
Qed.

Lemma init_some log_dir w self w' :
  ChatLogger.init log_dir w = Some (self, w') ->
  self = {| ChatLogger.log_dir := log_dir;
            ChatLogger.current_session := None;
            ChatLogger.current_log_file := None |}
  /\ ChatLogger.files w' = ChatLogger.files w
  /\ ChatLogger.reads w' = ChatLogger.reads w
  /\ Str.nonempty log_dir = true
  /\ (log_dir ∈ ChatLogger.dirs w' \/ is_Some (ChatLogger.files w !! log_dir))
  /\ (ChatLogger.path_exists log_dir w = true -> w' = w).
Proof.
  unfold ChatLogger.init, ChatLogger.path_exists, ChatLogger.makedirs.
  destruct (Str.nonempty log_dir); cbn [andb]; [|done].
  destruct (bool_decide (log_dir ∈ ChatLogger.dirs w)) eqn:Hdir; cbn [orb].
  - intros [= <- <-]. apply bool_decide_eq_true in Hdir. by repeat split; left.
  - destruct (bool_decide (is_Some (ChatLogger.files w !! log_dir))) eqn:Hfile.
    + intros [= <- <-]. apply bool_decide_eq_true in Hfile.
      by repeat split; right.
    + cbn. intros [= <- <-]. repeat split; [|done]. left. cbn. set_solver.
Qed.

(** X22. A logger made on a directory name that is not a file records
    a series of events in call order in one file named after the first
    clock reading: the file receives the session-start record followed by
    one record per event, after whatever it held before, the timestamps
    being the successive clock readings; no other file changes.  The
    formatted first reading must not be empty. *)
Theorem logger_records_in_order
    (clock : nat -> Z) (strftime isoformat : Z -> string)
    (dumps : string -> string -> string -> string) (depth : nat)
    (log_dir : string) (events : list (string * string))
    (w w0 : ChatLogger.World) (self0 : ChatLogger.t) :
  ChatLogger.init log_dir w = Some (self0, w0) ->
  ChatLogger.files w !! log_dir = None ->
  Str.nonempty (strftime (clock (ChatLogger.reads w))) = true ->
  events <> [] ->
  let timestamp := strftime (clock (ChatLogger.reads w)) in
  let path :=
    ChatLogger.path_join log_dir ("chat_session_" +:+ timestamp +:+ ".json") in
  exists w',
    log_all clock strftime isoformat dumps (S (S depth)) events self0 w0 =
      ChatLogger.Done
        {| ChatLogger.log_dir := log_dir;
           ChatLogger.current_session := Some timestamp;
           ChatLogger.current_log_file := Some path |} w'
    /\ ChatLogger.files w' !! path =
         Some (default "" (ChatLogger.files w !! path) +:+
               event_lines clock isoformat dumps (S (ChatLogger.reads w))
                 (("system", "Chat session started") :: events))
    /\ (forall other, other <> path ->
          ChatLogger.files w' !! other = ChatLogger.files w !! other)
    /\ ChatLogger.reads w' = (2 + List.length events + ChatLogger.reads w)%nat.
Proof.
  intros Hinit Hnofile Hstamp Hevents timestamp path.
  apply init_some in Hinit as (-> & Hfiles & Hreads & _ & [Hdir|Hfile] & _);
    [|by rewrite Hnofile in Hfile; destruct Hfile].
  destruct events as [|[source message] rest]; [done|].
  cbn [log_all fst snd].
  rewrite (log_event_fresh clock strftime isoformat dumps depth source message)
    by (done || by rewrite Hreads).
  cbn [ChatLogger.log_dir]. rewrite Hreads, Hfiles. fold timestamp. fold path.
  erewrite (log_all_active clock strftime isoformat dumps (S depth) rest _ _ path);
    [|done|done|done].
  cbn [ChatLogger.dirs ChatLogger.files ChatLogger.reads].
  eexists. split; [reflexivity|].
  cbn [ChatLogger.files ChatLogger.reads List.length].
  split; [|split; [|lia]].
  - change (("system", "Chat session started") :: (source, message) :: rest)
      with ([("system", "Chat session started"); (source, message)] ++ rest).
    rewrite event_lines_app. cbn [List.length].
    destruct rest as [|event rest].
    + rewrite lookup_insert_eq. cbn [event_lines].
      by rewrite !string_app_assoc, !string_app_nil_r.
    + rewrite !lookup_insert_eq. cbn [default]. unfold id.
      by rewrite !string_app_assoc.
  - intros other Hother.
    destruct rest; by rewrite ?lookup_insert_ne by done.
Qed.

Lemma logger_records_in_order_witness :
  ChatLogger.init "chat_logs" Example.nothing =
    Some ({| ChatLogger.log_dir := "chat_logs";
             ChatLogger.current_session := None;
             ChatLogger.current_log_file := None |},
          {| ChatLogger.dirs := {["chat_logs"]} ∪ ∅;
             ChatLogger.files := ∅; ChatLogger.reads := 0 |}) /\
  ChatLogger.files Example.nothing !! "chat_logs" = None /\
  Str.nonempty (Example.stamp (Example.ticks 0)) = true /\
  Example.greeting <> [] /\
  exists w',
    log_all Example.ticks Example.stamp Str.of_Z Example.record 2
      Example.greeting
      {| ChatLogger.log_dir := "chat_logs";
         ChatLogger.current_session := None;
         ChatLogger.current_log_file := None |}
      {| ChatLogger.dirs := {["chat_logs"]} ∪ ∅;
         ChatLogger.files := ∅; ChatLogger.reads := 0 |} =
      ChatLogger.Done
        {| ChatLogger.log_dir := "chat_logs";
           ChatLogger.current_session := Some "t0";
           ChatLogger.current_log_file :=
             Some "chat_logs/chat_session_t0.json" |} w'
    /\ ChatLogger.files w' !! "chat_logs/chat_session_t0.json" =
         Some ("" +:+
               event_lines Example.ticks Str.of_Z Example.record 1
                 (("system", "Chat session started") :: Example.greeting))
    /\ (forall other, other <> "chat_logs/chat_session_t0.json" ->
          ChatLogger.files w' !! other = ChatLogger.files Example.nothing !! other)
    /\ ChatLogger.reads w' = (2 + List.length Example.greeting + 0)%nat.
Proof.
  assert (Hinit : ChatLogger.init "chat_logs" Example.nothing =
            Some ({| ChatLogger.log_dir := "chat_logs";
                     ChatLogger.current_session := None;
                     ChatLogger.current_log_file := None |},
                  {| ChatLogger.dirs := {["chat_logs"]} ∪ ∅;
                     ChatLogger.files := ∅; ChatLogger.reads := 0 |}))
    by reflexivity.
  assert (Hne : Example.greeting <> []) by done.
  split; [exact Hinit|]. split; [reflexivity|]. split; [reflexivity|].
  split; [exact Hne|].
  exact (logger_records_in_order Example.ticks Example.stamp Str.of_Z
           Example.record 0 "chat_logs" Example.greeting Example.nothing _ _
           Hinit eq_refl eq_refl Hne).
Defined.

